(** * realsense2sdcard: the streaming and the saving program

    A shallow embedding of [rpi_streamer.cpp] (network streaming of
    colour+depth frames over UDP) and of [10s-save.cpp] (ten seconds of
    frames saved to disk), and the properties of both that the design
    document states.

    Both programs are one [main] each, driven by a camera, clocks and a
    socket.  The embedding makes the environment explicit: every call
    into the outside world takes its answer from an input record, and
    every effect on the outside world is an [event] of the returned
    trace.  A [while (true)] loop is run over a finite list of such
    records; when the list is used up the program is still [Running]. *)

From Stdlib Require Import ZArith List Lia Bool Sorted.
From Stdlib Require String Ascii.
From Stdlib Require Import Strings.Byte.
From Stdlib Require DecimalString.
Import ListNotations.
Open Scope Z_scope.

(** ** Bytes, integers in host byte order, and the layout of a struct *)

Module Wire.

(** [uint8_t]: the low eight bits of an integer. *)
Definition byte_of_Z (z : Z) : byte :=
  match Byte.of_N (Z.to_N (z mod 256)) with
  | Some b => b
  | None => x00
  end.

Definition Z_of_byte (b : byte) : Z := Z.of_N (Byte.to_N b).

(** The object representation of an [n]-byte unsigned integer on a
    little-endian host (ARM and x86 as the streamer is deployed): least
    significant byte first.  A value that does not fit is reduced modulo
    [2^(8n)], as the conversion to the unsigned field type does. *)
Fixpoint le_bytes (n : nat) (z : Z) : list byte :=
  match n with
  | O => []
  | S k => byte_of_Z z :: le_bytes k (z / 256)
  end.

Fixpoint le_value (bs : list byte) : Z :=
  match bs with
  | [] => 0
  | b :: r => Z_of_byte b + 256 * le_value r
  end.

(** The scalar types of the fields of [NetworkFrame]. *)
Inductive ctype := U16 | U32 | U64.

Definition size_of (t : ctype) : nat :=
  match t with U16 => 2 | U32 => 4 | U64 => 8 end%nat.

(** [sizeof] and the padding of a struct are fixed by the C++ ABI the
    program is compiled for, not by the source.  What differs between the
    ABIs of interest is the alignment of a 64-bit integer inside a
    struct: 8 bytes under the ARM (AAPCS, AArch64) and x86-64 ABIs, which
    the Raspberry Pi targets use, and 4 bytes under the i386 System V
    ABI. *)
Inductive abi := Align8 | Align4.

Definition max_align (a : abi) : nat :=
  match a with Align8 => 8 | Align4 => 4 end%nat.

Definition align_of (a : abi) (t : ctype) : nat :=
  Nat.min (size_of t) (max_align a).

(** The least multiple of [al] that is at least [x]. *)
Definition align_up (x al : nat) : nat :=
  (((x + al - 1) / al) * al)%nat.

(** Offsets of the members of a struct, declared in this order, the
    first free byte being [cur]: every member goes to the next offset
    that its alignment divides. *)
Fixpoint offsets (a : abi) (cur : nat) (ts : list ctype) : list nat :=
  match ts with
  | [] => []
  | t :: r =>
      let o := align_up cur (align_of a t) in
      o :: offsets a (o + size_of t) r
  end.

Definition struct_align (a : abi) (ts : list ctype) : nat :=
  fold_right (fun t m => Nat.max (align_of a t) m) 1%nat ts.

Fixpoint struct_end (a : abi) (cur : nat) (ts : list ctype) : nat :=
  match ts with
  | [] => cur
  | t :: r => struct_end a (align_up cur (align_of a t) + size_of t) r
  end.

Definition struct_size (a : abi) (ts : list ctype) : nat :=
  align_up (struct_end a 0 ts) (struct_align a ts).

(** Padding bytes are never written by the program: they hold whatever
    the memory of the object held before, given here by [junk], indexed
    by the offset inside the object. *)
Definition padding (junk : nat -> byte) (from to : nat) : list byte :=
  map junk (seq from (to - from)).

(** The bytes of a struct object whose members hold the given values:
    what [memcpy(dst, &object, sizeof object)] copies. *)
Fixpoint image_from (a : abi) (junk : nat -> byte) (al cur : nat)
    (fs : list (ctype * Z)) : list byte :=
  match fs with
  | [] => padding junk cur (align_up cur al)
  | (t, v) :: r =>
      let o := align_up cur (align_of a t) in
      padding junk cur o ++ le_bytes (size_of t) v
        ++ image_from a junk al (o + size_of t) r
  end.

Definition image (a : abi) (junk : nat -> byte) (fs : list (ctype * Z))
    : list byte :=
  image_from a junk (struct_align a (map fst fs)) 0 fs.

(** Reading the member of type [t] at offset [off] of an object. *)
Definition read_at (off : nat) (t : ctype) (bs : list byte) : Z :=
  le_value (firstn (size_of t) (skipn off bs)).

End Wire.

(** ** [rpi_streamer.cpp] *)

Module Streamer.
Import Wire.

Definition u16 (z : Z) : Z := z mod 2 ^ 16.
Definition u32 (z : Z) : Z := z mod 2 ^ 32.
Definition u64 (z : Z) : Z := z mod 2 ^ 64.

(** What the program uses of an [rs2::video_frame]: [get_width()],
    [get_height()] (both [int]) and the pixel buffer behind
    [get_data()], of [get_data_size()] bytes. *)
Record video_frame := {
  get_width : Z;
  get_height : Z;
  get_data : list byte
}.

Definition get_data_size (f : video_frame) : Z :=
  Z.of_nat (length (get_data f)).

(** An [rs2::frameset]: [get_color_frame()] and [get_depth_frame()]
    return an empty frame, which tests false, when the set has none. *)
Record frameset := {
  get_color_frame : option video_frame;
  get_depth_frame : option video_frame
}.

(** [struct NetworkFrame] (lines 13-20). *)
Record NetworkFrame := {
  frame_id : Z;     (* uint32_t *)
  timestamp : Z;    (* uint64_t *)
  width : Z;        (* uint16_t *)
  height : Z;       (* uint16_t *)
  rgb_size : Z;     (* uint32_t *)
  depth_size : Z    (* uint32_t *)
}.

Definition NetworkFrame_members : list ctype :=
  [U32; U64; U16; U16; U32; U32].

(** [sizeof(NetworkFrame)]. *)
Definition sizeof_NetworkFrame (a : abi) : nat :=
  struct_size a NetworkFrame_members.

Definition NetworkFrame_values (h : NetworkFrame) : list (ctype * Z) :=
  [(U32, frame_id h); (U64, timestamp h); (U16, width h);
   (U16, height h); (U32, rgb_size h); (U32, depth_size h)].

(** The [sizeof(NetworkFrame)] bytes at [&header]. *)
Definition NetworkFrame_image (a : abi) (junk : nat -> byte)
    (h : NetworkFrame) : list byte :=
  image a junk (NetworkFrame_values h).

(** The variables of [main] that live across iterations of the loop. *)
Record loop_state := {
  frame_count : Z;     (* uint32_t *)
  last_fps_time : Z;   (* steady_clock::time_point, in nanoseconds *)
  fps_counter : Z      (* int; set back to 0 at every report *)
}.

(** The answers of the environment during one iteration of the loop:
    the result of [pipe.wait_for_frames()] ([None] when it throws
    [rs2::error]) and, for the calls that follow it in that iteration,
    the reading of [high_resolution_clock] (its [count()], nanoseconds),
    the indeterminate bytes of the uninitialised [header] object, the
    return value of [sendto] and the reading of [steady_clock]
    (nanoseconds). *)
Record iteration := {
  wait_for_frames : option frameset;
  high_resolution_now : Z;
  header_junk : nat -> byte;
  sendto_result : Z;
  steady_now : Z
}.

(** What the program does to the outside world.  [Header_prepared] is
    not an output: it records the header that lines 83-90 fill in, so
    that headers of frames that are never sent can be spoken of too. *)
Inductive event :=
| Cout_usage
| Perror_socket
| Cout_started
| Header_prepared (h : NetworkFrame)
| Cout_frame_too_large
| Sendto (packet : list byte) (ret : Z)
| Perror_sendto
| Cout_streaming_fps (fps : Z) (frame_kb : Z)
| Cerr_realsense_error
| Close_sock.

Inductive outcome :=
| Running
| Exited (code : Z).

(** The status the parent process sees for a value returned from
    [main]: its low eight bits. *)
Definition exit_status (code : Z) : Z := code mod 256.

(** Lines 83-90, "Prepare network frame".  [frame_count++] is applied by
    the caller. *)
Definition prepare_network_frame (count now : Z)
    (color depth : video_frame) : NetworkFrame :=
  {| frame_id := count;
     timestamp := u64 now;
     width := u16 (get_width color);
     height := u16 (get_height color);
     rgb_size := u32 (get_data_size color);
     depth_size := u32 (get_data_size depth) |}.

(** Line 93.  The sum is taken in [size_t] and cannot wrap: the two
    payload sizes are sizes of buffers that are in memory together. *)
Definition total_size (a : abi) (h : NetworkFrame) : Z :=
  Z.of_nat (sizeof_NetworkFrame a) + rgb_size h + depth_size h.

(** Lines 94-105, "Create packet: header + rgb + depth": the three
    [memcpy] into a vector of [total_size] bytes. *)
Definition create_packet (a : abi) (junk : nat -> byte) (h : NetworkFrame)
    (color depth : video_frame) : list byte :=
  NetworkFrame_image a junk h
    ++ firstn (Z.to_nat (rgb_size h)) (get_data color)
    ++ firstn (Z.to_nat (depth_size h)) (get_data depth).

(** "UDP max payload", the literal of line 108. *)
Definition udp_max_payload : Z := 65507.

(** Lines 120-128, "FPS monitoring".  [duration_cast<seconds>] rounds
    towards zero. *)
Definition fps_monitoring (s : loop_state) (now total : Z)
    : list event * loop_state :=
  let counter := fps_counter s + 1 in
  if Z.quot (now - last_fps_time s) 1000000000 >=? 1 then
    ([Cout_streaming_fps counter (total / 1024)],
     {| frame_count := frame_count s;
        last_fps_time := now;
        fps_counter := 0 |})
  else
    ([],
     {| frame_count := frame_count s;
        last_fps_time := last_fps_time s;
        fps_counter := counter |}).

(** Lines 107-118, "Send packet": the size guard, the one [sendto] and
    its diagnostic.  The flag is false for the [continue] of line 110. *)
Definition send_packet (total : Z) (packet : list byte) (ret : Z)
    : list event * bool :=
  if total >? udp_max_payload then ([Cout_frame_too_large], false)
  else (Sendto packet ret :: (if ret <? 0 then [Perror_sendto] else []),
        true).

Inductive step_result :=
| Continue (s : loop_state)
| Thrown.

(** One iteration of the [while (true)] of lines 75-129. *)
Definition loop_body (a : abi) (s : loop_state) (i : iteration)
    : list event * step_result :=
  match wait_for_frames i with
  | None => ([], Thrown)
  | Some frames =>
      match get_color_frame frames, get_depth_frame frames with
      | Some color, Some depth =>
          let h := prepare_network_frame (frame_count s)
                     (high_resolution_now i) color depth in
          let s1 := {| frame_count := u32 (frame_count s + 1);
                       last_fps_time := last_fps_time s;
                       fps_counter := fps_counter s |} in
          let total := total_size a h in
          let packet := create_packet a (header_junk i) h color depth in
          let (sent, go_on) := send_packet total packet (sendto_result i) in
          if go_on then
            let (report, s2) := fps_monitoring s1 (steady_now i) total in
            (Header_prepared h :: sent ++ report, Continue s2)
          else (Header_prepared h :: sent, Continue s1)
      | _, _ => ([], Continue s)
      end
  end.

(** The loop over the answers of the environment; the flag tells
    whether [rs2::error] left it. *)
Fixpoint stream_loop (a : abi) (s : loop_state) (env : list iteration)
    : list event * bool :=
  match env with
  | [] => ([], false)
  | i :: rest =>
      match loop_body a s i with
      | (evs, Thrown) => (evs, true)
      | (evs, Continue s') =>
          let (t, thrown) := stream_loop a s' rest in (evs ++ t, thrown)
      end
  end.

(** Line 69, "Stabilization": [n] calls of [pipe.wait_for_frames()]
    whose results are dropped. *)
Inductive stabilized :=
| Stable (rest : list iteration)
| Stabilizing
| Stabilize_thrown.

Fixpoint stabilization (n : nat) (env : list iteration) : stabilized :=
  match n with
  | O => Stable env
  | S k =>
      match env with
      | [] => Stabilizing
      | i :: rest =>
          match wait_for_frames i with
          | None => Stabilize_thrown
          | Some _ => stabilization k rest
          end
      end
  end.

Definition initial_state (t0 : Z) : loop_state :=
  {| frame_count := 0; last_fps_time := t0; fps_counter := 0 |}.

(** The [try] block of lines 64-130: [pipe_start] tells whether
    [pipe.start(cfg)] returned, [t0] is the reading of [steady_clock] of
    line 72. *)
Definition try_block (a : abi) (pipe_start : bool) (t0 : Z)
    (env : list iteration) : list event * bool :=
  if pipe_start then
    match stabilization 30 env with
    | Stabilize_thrown => ([Cout_started], true)
    | Stabilizing => ([Cout_started], false)
    | Stable rest =>
        let (t, thrown) := stream_loop a (initial_state t0) rest in
        (Cout_started :: t, thrown)
    end
  else ([], true).

(** Lines 131-136, what follows the [try] block: the handler of
    [rs2::error] when it was thrown, then [close(sock)] and [return 0].
    The block itself never ends otherwise. *)
Definition after_try (r : list event * bool) : list event * outcome :=
  let (t, thrown) := r in
  if thrown then (t ++ [Cerr_realsense_error; Close_sock], Exited 0)
  else (t, Running).

(** [main]: [argc], the descriptor returned by [socket], and the
    environment of the [try] block.  The results of [setsockopt] and
    [inet_pton] are not looked at by the program. *)
Definition main (a : abi) (argc socket_fd : Z) (pipe_start : bool)
    (t0 : Z) (env : list iteration) : list event * outcome :=
  if negb (argc =? 2) then ([Cout_usage], Exited (-1))
  else if socket_fd <? 0 then ([Perror_socket], Exited (-1))
  else after_try (try_block a pipe_start t0 env).

(** The headers filled in during a run, in order. *)
Fixpoint headers (t : list event) : list NetworkFrame :=
  match t with
  | [] => []
  | Header_prepared h :: r => h :: headers r
  | _ :: r => headers r
  end.

(** The datagrams handed to [sendto], in order, with its answer. *)
Fixpoint datagrams (t : list event) : list (list byte * Z) :=
  match t with
  | [] => []
  | Sendto p ret :: r => (p, ret) :: datagrams r
  | _ :: r => datagrams r
  end.

(** The lines printed by the FPS monitoring, in order. *)
Fixpoint reports (t : list event) : list (Z * Z) :=
  match t with
  | [] => []
  | Cout_streaming_fps fps kb :: r => (fps, kb) :: reports r
  | _ :: r => reports r
  end.

(** The bytes handed to [sendto] during a run. *)
Definition bytes_handed_over (t : list event) : Z :=
  fold_right (fun d n => Z.of_nat (length (fst d)) + n) 0 (datagrams t).

(** A frameset with both frames; [incomplete] is the test of line 80. *)
Definition incomplete (i : iteration) : bool :=
  match wait_for_frames i with
  | Some {| get_color_frame := Some _; get_depth_frame := Some _ |} => false
  | Some _ => true
  | None => false
  end.

(** The successful acquisitions of a run: the clock reading and the two
    frames of every iteration that gets past line 80, up to the first
    [rs2::error]. *)
Fixpoint acquisitions (env : list iteration)
    : list (Z * video_frame * video_frame) :=
  match env with
  | [] => []
  | i :: rest =>
      match wait_for_frames i with
      | None => []
      | Some {| get_color_frame := Some color;
                get_depth_frame := Some depth |} =>
          (high_resolution_now i, color, depth) :: acquisitions rest
      | Some _ => acquisitions rest
      end
  end.

(** The headers of a sequence of acquisitions, the frame counter being
    [count] at the first. *)
Fixpoint numbered (count : Z) (l : list (Z * video_frame * video_frame))
    : list NetworkFrame :=
  match l with
  | [] => []
  | (now, color, depth) :: r =>
      prepare_network_frame count now color depth
        :: numbered (u32 (count + 1)) r
  end.

(** The [total_size] of the packet of an iteration that gets a complete
    frameset. *)
Definition wire_size (a : abi) (i : iteration) : option Z :=
  match wait_for_frames i with
  | Some {| get_color_frame := Some color;
            get_depth_frame := Some depth |} =>
      Some (total_size a (prepare_network_frame 0 0 color depth))
  | _ => None
  end.

(** The iteration reaches the FPS monitoring: complete frameset, packet
    within the datagram limit. *)
Definition recorded (a : abi) (i : iteration) : bool :=
  match wire_size a i with
  | Some n => n <=? udp_max_payload
  | None => false
  end.

(** [wait_for_frames] returns a frameset. *)
Definition delivers (i : iteration) : bool :=
  match wait_for_frames i with Some _ => true | None => false end.

(** The same answers with another result of [sendto]. *)
Definition with_sendto_result (ret : Z) (i : iteration) : iteration :=
  {| wait_for_frames := wait_for_frames i;
     high_resolution_now := high_resolution_now i;
     header_junk := header_junk i;
     sendto_result := ret;
     steady_now := steady_now i |}.

(** The frame ids that go out on the wire during a run: what the
    first four bytes of each datagram, the member [frame_id] of its
    header, read as. *)
Definition wire_ids (t : list event) : list Z :=
  map (fun d => read_at 0 U32 (fst d)) (datagrams t).

(** [compress_rgb] (lines 22-28): the vector built from the range
    [data, data + size) of the frame's buffer. *)
Definition compress_rgb (frame : video_frame) : list byte :=
  firstn (Z.to_nat (get_data_size frame)) (get_data frame).

(** How often the warning of line 109 and the diagnostic of line 117 are
    printed during a run. *)
Fixpoint warnings (t : list event) : nat :=
  match t with
  | [] => O
  | Cout_frame_too_large :: r => S (warnings r)
  | _ :: r => warnings r
  end.

Fixpoint perrors (t : list event) : nat :=
  match t with
  | [] => O
  | Perror_sendto :: r => S (perrors r)
  | _ :: r => perrors r
  end.

(** The frames of the iteration, when it has both, have the sizes of the
    streams that lines 61-62 enable: 424 by 240 pixels of RGB8 (three
    bytes) and of Z16 (two bytes). *)
Definition configured_sizes (i : iteration) : bool :=
  match wait_for_frames i with
  | Some {| get_color_frame := Some color;
            get_depth_frame := Some depth |} =>
      (get_data_size color =? 424 * 240 * 3)
      && (get_data_size depth =? 424 * 240 * 2)
  | _ => true
  end.

End Streamer.

(** ** [10s-save.cpp] *)

Module Saver.
Import String Ascii.
Local Open Scope string_scope.
Local Open Scope Z_scope.

(** The decimal digits of a non-negative integer, most significant
    first; twenty steps cover every [long long]. *)
Definition digit (d : Z) : ascii :=
  ascii_of_nat (48 + Z.to_nat d).

Fixpoint digits (fuel : nat) (n : Z) : string :=
  match fuel with
  | O => ""
  | S f =>
      if n <? 10 then String (digit n) ""
      else digits f (n / 10) ++ String (digit (n mod 10)) ""
  end.

(** [stream << n] for an integer, with no field width. *)
Definition show_int (n : Z) : string :=
  if n <? 0 then "-" ++ digits 20 (- n) else digits 20 n.

Fixpoint fill (c : ascii) (n : nat) : string :=
  match n with
  | O => ""
  | S k => String c (fill c k)
  end.

(** [stream << std::setfill(c) << std::setw(w) << n]: fill characters in
    front, up to the width; a longer text is left as it is. *)
Definition setfill_setw (c : ascii) (w : nat) (s : string) : string :=
  fill c (w - String.length s) ++ s.

(** [create_filename] (lines 150-157). *)
Definition create_filename (base_dir stream_name : string)
    (frame_number timestamp : Z) (extension : string) : string :=
  base_dir ++ "/frame_" ++ setfill_setw "0" 6 (show_int frame_number)
    ++ "_" ++ show_int timestamp ++ "_" ++ stream_name ++ extension.

Inductive rs2_stream :=
| RS2_STREAM_COLOR
| RS2_STREAM_DEPTH
| RS2_STREAM_OTHER.

(** What the loop looks at in a frame of a frameset: whether
    [frame.as<rs2::video_frame>()] succeeds and the stream it is of. *)
Record frame := {
  is_video_frame : bool;
  stream_type : rs2_stream
}.

(** The answers of the environment during one iteration: the reading
    of [high_resolution_clock] in nanoseconds (line 70), the
    milliseconds since the epoch of [system_clock] (lines 79-80) and the
    result of [pipe.wait_for_frames()], [None] when it throws. *)
Record iteration := {
  high_resolution_now : Z;
  system_now_ms : Z;
  wait_for_frames : option (list frame)
}.

Inductive event :=
| Create_directory (path : string)
| Cout_stabilizing (done : Z)
| Stbi_write_png (filename : string)
| Metadata_to_csv (filename : string)
| Cout_progress (frames elapsed_ms : Z)
| Cout_capture_complete (frames : Z)
| Cerr_error.

Inductive outcome :=
| Running
| Exited (code : Z).

Definition EXIT_SUCCESS : Z := 0.
Definition EXIT_FAILURE : Z := 1.

(** The directory, stream name and extension of the five files that
    lines 93-118 write. *)
Definition saved_as : list (string * string * string) :=
  [("captured_data/rgb", "color", ".png");
   ("captured_data/metadata", "color", "_metadata.csv");
   ("captured_data/depth", "depth", ".png");
   ("captured_data/depth", "depth_colorized", ".png");
   ("captured_data/metadata", "depth", "_metadata.csv")].

(** The body of the [for] of lines 87-120 for one frame. *)
Definition save_frame (frame_count timestamp : Z) (f : frame)
    : list event :=
  if is_video_frame f then
    match stream_type f with
    | RS2_STREAM_COLOR =>
        [Stbi_write_png
           (create_filename "captured_data/rgb" "color"
              frame_count timestamp ".png");
         Metadata_to_csv
           (create_filename "captured_data/metadata" "color"
              frame_count timestamp "_metadata.csv")]
    | RS2_STREAM_DEPTH =>
        [Stbi_write_png
           (create_filename "captured_data/depth" "depth"
              frame_count timestamp ".png");
         Stbi_write_png
           (create_filename "captured_data/depth" "depth_colorized"
              frame_count timestamp ".png");
         Metadata_to_csv
           (create_filename "captured_data/metadata" "depth"
              frame_count timestamp "_metadata.csv")]
    | RS2_STREAM_OTHER => []
    end
  else [].

(** What one iteration that gets a frameset does (lines 82-127), the
    frame counter already incremented. *)
Definition save_frameset (frame_count timestamp elapsed_ms : Z)
    (frames : list frame) : list event :=
  (flat_map (save_frame frame_count timestamp) frames
     ++ (if Z.rem frame_count 30 =? 0
         then [Cout_progress frame_count elapsed_ms] else []))%list.

(** The [while (true)] of lines 69-128.  [frame_count] is an [int]; it
    counts the framesets of ten seconds. *)
Fixpoint capture_loop (start_time frame_count : Z) (env : list iteration)
    : list event * outcome :=
  match env with
  | [] => ([], Running)
  | i :: rest =>
      let elapsed := Z.quot (high_resolution_now i - start_time) 1000000 in
      if elapsed >=? 10000 then
        ([Cout_capture_complete frame_count], Exited EXIT_SUCCESS)
      else
        let timestamp := system_now_ms i in
        match wait_for_frames i with
        | None => ([Cerr_error], Exited EXIT_FAILURE)
        | Some frames =>
            let count := frame_count + 1 in
            let (t, o) := capture_loop start_time count rest in
            ((save_frameset count timestamp elapsed frames ++ t)%list, o)
        end
  end.

(** Lines 54-57: [n] framesets are waited for and dropped, [done] of
    them already. *)
Inductive stabilized :=
| Stable (rest : list iteration)
| Stabilizing
| Stabilize_thrown.

Fixpoint stabilization (n : nat) (done : Z) (env : list iteration)
    : list event * stabilized :=
  match n with
  | O => ([], Stable env)
  | S k =>
      match env with
      | [] => ([], Stabilizing)
      | i :: rest =>
          match wait_for_frames i with
          | None => ([], Stabilize_thrown)
          | Some _ =>
              let (t, r) := stabilization k (done + 1) rest in
              (Cout_stabilizing (done + 1) :: t, r)
          end
      end
  end.

Definition directories : list event :=
  [Create_directory "captured_data";
   Create_directory "captured_data/rgb";
   Create_directory "captured_data/depth";
   Create_directory "captured_data/metadata"].

(** [main] with its function [try] block: [pipe_start] tells whether
    [pipe.start(cfg)] returned, [start_time] is the reading of
    [high_resolution_clock] of line 61. *)
Definition main (pipe_start : bool) (start_time : Z)
    (env : list iteration) : list event * outcome :=
  if pipe_start then
    match stabilization 30 0 env with
    | (t, Stabilize_thrown) =>
        ((directories ++ t ++ [Cerr_error])%list, Exited EXIT_FAILURE)
    | (t, Stabilizing) => ((directories ++ t)%list, Running)
    | (t, Stable rest) =>
        let (t', o) := capture_loop start_time 0 rest in
        ((directories ++ t ++ t')%list, o)
    end
  else ((directories ++ [Cerr_error])%list, Exited EXIT_FAILURE).

(** [wait_for_frames] returns a frameset. *)
Definition delivers (i : iteration) : bool :=
  match wait_for_frames i with Some _ => true | None => false end.

(** The names of the files written during a run, in order. *)
Fixpoint files (t : list event) : list string :=
  match t with
  | [] => []
  | Stbi_write_png f :: r => f :: files r
  | Metadata_to_csv f :: r => f :: files r
  | _ :: r => files r
  end.

(** The framesets that the capture loop gets before it ends: the
    timestamp and the frames of every iteration up to the first whose
    clock reading is ten seconds or more after [start_time], or whose
    [wait_for_frames] throws. *)
Fixpoint captured (start_time : Z) (env : list iteration)
    : list (Z * list frame) :=
  match env with
  | [] => []
  | i :: rest =>
      if Z.quot (high_resolution_now i - start_time) 1000000 >=? 10000
      then []
      else match wait_for_frames i with
           | None => []
           | Some frames =>
               (system_now_ms i, frames) :: captured start_time rest
           end
  end.

(** The files written for a sequence of framesets, the first of them
    numbered [count + 1]. *)
Fixpoint files_numbered (count : Z) (l : list (Z * list frame))
    : list string :=
  match l with
  | [] => []
  | (timestamp, frames) :: r =>
      (flat_map (fun f => files (save_frame (count + 1) timestamp f)) frames
         ++ files_numbered (count + 1) r)%list
  end.

(** The number of video frames of a stream in a frameset. *)
Definition video_frames_of (s : rs2_stream) (frames : list frame) : nat :=
  List.length
    (filter (fun f => is_video_frame f
                      && match stream_type f, s with
                         | RS2_STREAM_COLOR, RS2_STREAM_COLOR => true
                         | RS2_STREAM_DEPTH, RS2_STREAM_DEPTH => true
                         | RS2_STREAM_OTHER, RS2_STREAM_OTHER => true
                         | _, _ => false
                         end) frames).

(** A frameset as the pipeline of lines 44-45 delivers it: at most one
    colour and at most one depth video frame. *)
Definition one_per_stream (frames : list frame) : bool :=
  (video_frames_of RS2_STREAM_COLOR frames <=? 1)%nat
  && (video_frames_of RS2_STREAM_DEPTH frames <=? 1)%nat.

(** The names of the files of a colour frame and of a depth frame. *)
Definition color_names (n timestamp : Z) : list string :=
  files (save_frame n timestamp
    {| is_video_frame := true; stream_type := RS2_STREAM_COLOR |}).

Definition depth_names (n timestamp : Z) : list string :=
  files (save_frame n timestamp
    {| is_video_frame := true; stream_type := RS2_STREAM_DEPTH |}).

(** The iteration gets no frameset, or one with at most one colour and
    at most one depth video frame. *)
Definition delivers_one_per_stream (i : iteration) : bool :=
  match wait_for_frames i with
  | Some frames => one_per_stream frames
  | None => true
  end.

(** The character is none of the ten digits. *)
Definition no_digit (c : ascii) : Prop :=
  forall k, (k <= 9)%nat -> Ascii.eqb c (ascii_of_nat (48 + k)) = false.

(** The number that a text of decimal digits stands for, read from the
    left, [acc] being the value of what was read before. *)
Fixpoint decimal (acc : Z) (s : string) : Z :=
  match s with
  | "" => acc
  | String c r => decimal (10 * acc + (Z.of_nat (nat_of_ascii c) - 48)) r
  end.





(** *** [metadata_to_csv] *)

Definition newline : string := String (ascii_of_nat 10) "".

(** The text that [metadata_to_csv] (lines 171-189) streams into the
    file.  [count] is [RS2_FRAME_METADATA_COUNT] and [attribute_name] is
    [rs2_frame_metadata_to_string], both of librealsense;
    [stream_name] is [rs2_stream_to_string] of the frame's stream, and
    [metadata i] is [Some] of [get_frame_metadata(i)], a [long long],
    when [supports_frame_metadata(i)] holds. *)
Definition metadata_to_csv (count : nat) (attribute_name : nat -> string)
    (stream_name : string) (metadata : nat -> option Z) : string :=
  "Stream," ++ stream_name ++ newline
    ++ "Metadata Attribute,Value" ++ newline
    ++ concat ""
         (map (fun i =>
                 match metadata i with
                 | Some v => attribute_name i ++ "," ++ show_int v ++ newline
                 | None => ""
                 end)
              (seq 0 count)).

(** The character does not occur in the text. *)
Fixpoint free_of (c : ascii) (s : string) : bool :=
  match s with
  | "" => true
  | String d r => negb (Ascii.eqb c d) && free_of c r
  end.

(** The lines of a text in which every line ends in a newline, without
    their newlines; [None] for a text whose last line is not ended. *)
Fixpoint whole_lines (s : string) : option (list string) :=
  match s with
  | "" => Some []
  | String c r =>
      if Ascii.eqb c (ascii_of_nat 10)
      then option_map (cons "") (whole_lines r)
      else match whole_lines r with
           | Some (l :: ls) => Some (String c l :: ls)
           | _ => None
           end
  end.

(** *** [create_directory] *)

(** The part of the file system that the program sees: what a path
    names, if anything. *)
Inductive node := Regular_file | Directory.

Definition filesystem := string -> option node.

(** The path without its last component; [None] for a path of one
    component, which lies in the working directory. *)
Fixpoint dirname (path : string) : option string :=
  match path with
  | "" => None
  | String c r =>
      match dirname r with
      | Some d => Some (String c d)
      | None => if Ascii.eqb c "/" then Some "" else None
      end
  end.

(** [stat(path, &info) == 0]: the path names something. *)
Definition stat (fs : filesystem) (path : string) : bool :=
  match fs path with Some _ => true | None => false end.

(** [mkdir(path, 0755)] of POSIX: it fails when the path names
    something already or when what is in front of the last component is
    no directory, and also, [permitted] being false, when the process
    may not write there; otherwise the path names a directory
    afterwards.  The working directory and the root are directories. *)
Definition mkdir (permitted : bool) (fs : filesystem) (path : string)
    : filesystem :=
  let parent_is_directory :=
    match dirname path with
    | None => true
    | Some "" => true
    | Some d => match fs d with Some Directory => true | _ => false end
    end in
  if permitted && negb (stat fs path) && parent_is_directory
  then fun q => if String.eqb q path then Some Directory else fs q
  else fs.

(** [create_directory] (lines 159-169); the result of [mkdir] is not
    looked at. *)
Definition create_directory (permitted : bool) (fs : filesystem)
    (path : string) : filesystem :=
  if negb (stat fs path) then mkdir permitted fs path else fs.

(** Lines 31-34 of [main]. *)
Definition directory_paths : list string :=
  ["captured_data"; "captured_data/rgb"; "captured_data/depth";
   "captured_data/metadata"].

Definition create_directories (permitted : bool) (fs : filesystem)
    : filesystem :=
  fold_left (create_directory permitted) directory_paths fs.

End Saver.

(** ** The receiving side *)

Module Receiver.
Import Wire Streamer.










End Receiver.

(** ** Concrete runs *)

Module Examples.
Import Wire Streamer.

Definition zero_junk : nat -> byte := fun _ => x00.

(** A frame of [w] by [h] pixels of [bpp] bytes, every byte [b]. *)
Definition flat_frame (w h bpp : Z) (b : byte) : video_frame :=
  {| get_width := w; get_height := h;
     get_data := repeat b (Z.to_nat (w * h * bpp)) |}.

Definition both (color depth : video_frame) : frameset :=
  {| get_color_frame := Some color; get_depth_frame := Some depth |}.

(** The streams as [main] configures them: 424 by 240, RGB8 and Z16. *)
Definition configured_frameset : frameset :=
  both (flat_frame 424 240 3 x80) (flat_frame 424 240 2 x10).

(** A frameset of 2 by 1 pixels, which fits a datagram. *)
Definition tiny_frameset : frameset :=
  both (flat_frame 2 1 3 xaa) (flat_frame 2 1 2 x10).

(** A frameset of 1024 bytes of colour and 1024 bytes of depth. *)
Definition kilobyte_frameset : frameset :=
  both (flat_frame 32 16 2 xaa) (flat_frame 32 16 2 x10).

Definition answer (frames : option frameset) (clock ret steady : Z)
    : iteration :=
  {| wait_for_frames := frames;
     high_resolution_now := clock;
     header_junk := zero_junk;
     sendto_result := ret;
     steady_now := steady |}.

(** Thirty framesets for the stabilization. *)
Definition warm_up : list iteration :=
  repeat (answer (Some configured_frameset) 0 0 0) 30.

(** Thirty framesets of 2080 bytes on the wire, the [k]-th one sent
    [k/30] seconds after the start of the window at 0. *)
Definition one_second_of_frames : list iteration :=
  map (fun k => answer (Some kilobyte_frameset) (Z.of_nat k) 2080
                  (Z.of_nat k * 1000000000 / 30))
      (seq 1 30).

(** The saving program: a frameset with a colour and a depth frame. *)
Definition color_and_depth : list Saver.frame :=
  [{| Saver.is_video_frame := true;
      Saver.stream_type := Saver.RS2_STREAM_COLOR |};
   {| Saver.is_video_frame := true;
      Saver.stream_type := Saver.RS2_STREAM_DEPTH |}].

Definition saver_answer (clock ms : Z) (frames : option (list Saver.frame))
    : Saver.iteration :=
  {| Saver.high_resolution_now := clock;
     Saver.system_now_ms := ms;
     Saver.wait_for_frames := frames |}.

Definition saver_warm_up : list Saver.iteration :=
  repeat (saver_answer 0 0 (Some color_and_depth)) 30.

End Examples.

(** File systems at the start of the saving program: nothing there,
    and a regular file where the directory [captured_data] should be. *)
Module FileSystems.
Import String.

Definition empty_filesystem : Saver.filesystem := fun _ => None.

Definition file_in_the_way : Saver.filesystem :=
  fun q => if String.eqb q "captured_data"
           then Some Saver.Regular_file else None.

End FileSystems.

(** * Properties *)

Import Wire.

(** ** Bytes and integers *)

Section WireFacts.

Lemma Z_of_byte_of_Z (z : Z) : Z_of_byte (byte_of_Z z) = z mod 256.
Proof.
  unfold Z_of_byte, byte_of_Z.
  assert (Hr : 0 <= z mod 256 < 256) by (apply Z.mod_pos_bound; lia).
  destruct (Byte.of_N (Z.to_N (z mod 256))) as [b|] eqn:E.
  - apply Byte.to_of_N in E. rewrite E. lia.
  - apply Byte.of_N_None_iff in E. lia.
Qed.

Lemma length_le_bytes (n : nat) (z : Z) : length (le_bytes n z) = n.
Proof.
  revert z. induction n as [|n IH]; intro z; simpl; [reflexivity|].
  now rewrite IH.
Qed.

Lemma le_value_le_bytes (n : nat) (z : Z) :
  le_value (le_bytes n z) = z mod 256 ^ Z.of_nat n.
Proof.
  revert z. induction n as [|n IH]; intro z.
  - simpl. now rewrite Z.mod_1_r.
  - cbn [le_bytes le_value]. rewrite IH, Z_of_byte_of_Z.
    rewrite Nat2Z.inj_succ, Z.pow_succ_r by lia.
    rewrite Z.rem_mul_r by (try apply Z.pow_nonzero; lia).
    reflexivity.
Qed.

Lemma le_value_le_bytes_small (n : nat) (z : Z) :
  0 <= z < 256 ^ Z.of_nat n -> le_value (le_bytes n z) = z.
Proof.
  intro H. rewrite le_value_le_bytes. now apply Z.mod_small.
Qed.

Lemma firstn_exact {A} (xs ys : list A) (n : nat) :
  length xs = n -> firstn n (xs ++ ys) = xs.
Proof.
  intros <-. rewrite firstn_app, Nat.sub_diag, firstn_all. simpl.
  now rewrite app_nil_r.
Qed.

Lemma skipn_exact {A} (xs ys : list A) (n : nat) :
  length xs = n -> skipn n (xs ++ ys) = ys.
Proof.
  intros <-. rewrite skipn_app, Nat.sub_diag, skipn_all. reflexivity.
Qed.

(** A member written behind [off] bytes is read back at offset [off]. *)
Lemma read_at_member (off : nat) (t : ctype) (v : Z)
    (before after : list byte) :
  length before = off ->
  read_at off t (before ++ le_bytes (size_of t) v ++ after)
    = v mod 256 ^ Z.of_nat (size_of t).
Proof.
  intro H. unfold read_at.
  rewrite (skipn_exact _ _ _ H).
  rewrite firstn_exact by apply length_le_bytes.
  apply le_value_le_bytes.
Qed.

End WireFacts.

(** ** The header and the packet of the streamer *)

Import Streamer Receiver.

Lemma u32_small (z : Z) : 0 <= z < 2 ^ 32 -> u32 z = z.
Proof. intro H. unfold u32. now apply Z.mod_small. Qed.

Lemma u32_range (z : Z) : 0 <= u32 z < 2 ^ 32.
Proof. unfold u32. apply Z.mod_pos_bound. lia. Qed.

Lemma u64_range (z : Z) : 0 <= u64 z < 2 ^ 64.
Proof. unfold u64. apply Z.mod_pos_bound. lia. Qed.

Lemma u16_range (z : Z) : 0 <= u16 z < 2 ^ 16.
Proof. unfold u16. apply Z.mod_pos_bound. lia. Qed.

Create HintDb wire discriminated.
#[local] Hint Resolve u16_range u32_range u64_range : wire.

Section Packet.

Variable a : abi.
Variable junk : nat -> byte.

Lemma sizeof_NetworkFrame_cases :
  sizeof_NetworkFrame a = match a with Align8 => 32 | Align4 => 24 end%nat.
Proof. destruct a; reflexivity. Qed.

Lemma NetworkFrame_offsets :
  offsets a 0 NetworkFrame_members
  = match a with
    | Align8 => [0; 8; 16; 18; 20; 24]
    | Align4 => [0; 4; 12; 14; 16; 20]
    end%nat.
Proof. destruct a; reflexivity. Qed.

Lemma length_NetworkFrame_image (h : NetworkFrame) :
  length (NetworkFrame_image a junk h) = sizeof_NetworkFrame a.
Proof.
  destruct a; unfold NetworkFrame_image, image; cbn; reflexivity.
Qed.

(** Every member is read back at its offset, whatever follows the
    header. *)
Lemma read_NetworkFrame_members (h : NetworkFrame) (rest : list byte) :
  map (fun ot => read_at (fst ot) (snd ot)
                   (NetworkFrame_image a junk h ++ rest))
      (combine (offsets a 0 NetworkFrame_members) NetworkFrame_members)
  = map (fun tv => le_value (le_bytes (size_of (fst tv)) (snd tv)))
      (NetworkFrame_values h).
Proof. destruct a; reflexivity. Qed.

Lemma firstn_data_size (f : video_frame) :
  get_data_size f < 2 ^ 32 ->
  firstn (Z.to_nat (u32 (get_data_size f))) (get_data f) = get_data f.
Proof.
  intro H. unfold get_data_size in *.
  rewrite u32_small by lia. rewrite Nat2Z.id. apply firstn_all.
Qed.

Lemma create_packet_app (count now : Z) (color depth : video_frame) :
  get_data_size color < 2 ^ 32 -> get_data_size depth < 2 ^ 32 ->
  create_packet a junk (prepare_network_frame count now color depth)
    color depth
  = NetworkFrame_image a junk (prepare_network_frame count now color depth)
      ++ get_data color ++ get_data depth.
Proof.
  intros Hc Hd. unfold create_packet. cbn [rgb_size depth_size
    prepare_network_frame].
  now rewrite !firstn_data_size.
Qed.

(** The vector that is sent has [total_size] bytes in every case. *)
Lemma length_create_packet (count now : Z) (color depth : video_frame) :
  Z.of_nat (length (create_packet a junk
     (prepare_network_frame count now color depth) color depth))
  = total_size a (prepare_network_frame count now color depth).
Proof.
  unfold create_packet, total_size.
  cbn [rgb_size depth_size prepare_network_frame].
  rewrite !length_app, length_NetworkFrame_image, !length_firstn.
  assert (Hc := u32_range (get_data_size color)).
  assert (Hd := u32_range (get_data_size depth)).
  assert (u32 (get_data_size color) <= get_data_size color).
  { unfold u32. apply Z.mod_le; unfold get_data_size; lia. }
  assert (u32 (get_data_size depth) <= get_data_size depth).
  { unfold u32. apply Z.mod_le; unfold get_data_size; lia. }
  unfold get_data_size in *. lia.
Qed.

End Packet.

Section RoundTrip.

Variable a : abi.
Variable junk : nat -> byte.




End RoundTrip.

(** C2 (as amended).  The header in front of the payload is the object
    representation of [struct NetworkFrame]: the six members in the
    order of declaration, each at the offset its alignment gives it, and
    the packet is that image, then the colour bytes, then the depth
    bytes, [rgb_size] and [depth_size] being their lengths.  The image
    has [sizeof(NetworkFrame)] bytes: 32 where a 64-bit integer is
    aligned to 8 bytes (members at 0, 8, 16, 18, 20, 24), and 24 only
    where it is aligned to 4 (members at 0, 4, 12, 14, 16, 20). *)
Theorem C2_header_is_struct_image (a : abi) (junk : nat -> byte)
    (count now : Z) (color depth : video_frame) :
  0 <= count < 2 ^ 32 ->
  get_data_size color < 2 ^ 32 -> get_data_size depth < 2 ^ 32 ->
  let h := prepare_network_frame count now color depth in
  let packet := create_packet a junk h color depth in
  packet = NetworkFrame_image a junk h ++ get_data color ++ get_data depth
  /\ length (NetworkFrame_image a junk h)
     = match a with Align8 => 32 | Align4 => 24 end%nat
  /\ offsets a 0 NetworkFrame_members
     = match a with
       | Align8 => [0; 8; 16; 18; 20; 24]
       | Align4 => [0; 4; 12; 14; 16; 20]
       end%nat
  /\ map (fun ot => read_at (fst ot) (snd ot) packet)
       (combine (offsets a 0 NetworkFrame_members) NetworkFrame_members)
     = [frame_id h; timestamp h; width h; height h; rgb_size h;
        depth_size h]
  /\ rgb_size h = Z.of_nat (length (get_data color))
  /\ depth_size h = Z.of_nat (length (get_data depth)).
Proof.
  intros Hcount Hc Hd h packet. subst packet h.
  rewrite (create_packet_app a junk count now color depth Hc Hd).
  set (h := prepare_network_frame count now color depth).
  split; [reflexivity|].
  split; [rewrite length_NetworkFrame_image; apply sizeof_NetworkFrame_cases|].
  split; [apply NetworkFrame_offsets|].
  split.
  - rewrite read_NetworkFrame_members. unfold NetworkFrame_values.
    cbn [map fst snd size_of].
    rewrite !le_value_le_bytes_small; [reflexivity|..]; subst h;
      cbn [frame_id timestamp width height rgb_size depth_size
           prepare_network_frame size_of]; auto with wire.
  - subst h. cbn [rgb_size depth_size prepare_network_frame].
    unfold get_data_size in *. rewrite !u32_small by lia. split; reflexivity.
Qed.


(** ** The packetizer: one datagram or none *)

Section SendPacket.

Variable a : abi.

Lemma loop_body_complete (s : loop_state) (i : iteration)
    (color depth : video_frame) :
  wait_for_frames i
    = Some {| get_color_frame := Some color; get_depth_frame := Some depth |} ->
  let h := prepare_network_frame (frame_count s) (high_resolution_now i)
             color depth in
  let s1 := {| frame_count := u32 (frame_count s + 1);
               last_fps_time := last_fps_time s;
               fps_counter := fps_counter s |} in
  loop_body a s i
  = if total_size a h >? udp_max_payload
    then ([Header_prepared h; Cout_frame_too_large], Continue s1)
    else (Header_prepared h
            :: Sendto (create_packet a (header_junk i) h color depth)
                 (sendto_result i)
            :: (if sendto_result i <? 0 then [Perror_sendto] else [])
            ++ fst (fps_monitoring s1 (steady_now i) (total_size a h)),
          Continue (snd (fps_monitoring s1 (steady_now i) (total_size a h)))).
Proof.
  intros Hw h s1. unfold loop_body. rewrite Hw. cbn [get_color_frame
    get_depth_frame]. fold h. fold s1. unfold send_packet.
  destruct (total_size a h >? udp_max_payload); [reflexivity|].
  destruct (fps_monitoring s1 (steady_now i) (total_size a h)).
  reflexivity.
Qed.

Lemma datagrams_app (t u : list event) :
  datagrams (t ++ u) = datagrams t ++ datagrams u.
Proof.
  induction t as [|e t IH]; [reflexivity|].
  destruct e; cbn; rewrite ?IH; reflexivity.
Qed.

Lemma datagrams_fps_monitoring (s : loop_state) (now total : Z) :
  datagrams (fst (fps_monitoring s now total)) = [].
Proof.
  unfold fps_monitoring.
  destruct (Z.quot (now - last_fps_time s) 1000000000 >=? 1); reflexivity.
Qed.

Lemma no_warning_fps_monitoring (s : loop_state) (now total : Z) :
  ~ In Cout_frame_too_large (fst (fps_monitoring s now total)).
Proof.
  unfold fps_monitoring.
  destruct (Z.quot (now - last_fps_time s) 1000000000 >=? 1); cbn;
    intuition discriminate.
Qed.

End SendPacket.

(** C1 (as amended).  For a complete frameset the packetizer compares
    [sizeof(NetworkFrame) + rgb_size + depth_size] with 65507.  When the
    sum is at most 65507, exactly one datagram is handed to [sendto]: the
    whole byte stream header, colour, depth, of exactly that many bytes,
    and no warning is printed.  When it exceeds 65507, no datagram is
    sent at all, the frame is dropped whole behind the warning
    [Cout_frame_too_large], and the frame counter has advanced all the
    same.  Nothing shorter than the whole stream is ever sent. *)
Theorem C1_one_datagram_or_warning (a : abi) (s : loop_state)
    (i : iteration) (color depth : video_frame) :
  wait_for_frames i
    = Some {| get_color_frame := Some color; get_depth_frame := Some depth |} ->
  get_data_size color < 2 ^ 32 -> get_data_size depth < 2 ^ 32 ->
  let h := prepare_network_frame (frame_count s) (high_resolution_now i)
             color depth in
  let whole := NetworkFrame_image a (header_junk i) h
                 ++ get_data color ++ get_data depth in
  let t := fst (loop_body a s i) in
  Z.of_nat (length whole) = total_size a h
  /\ (total_size a h <= udp_max_payload ->
      datagrams t = [(whole, sendto_result i)]
      /\ ~ In Cout_frame_too_large t)
  /\ (udp_max_payload < total_size a h ->
      datagrams t = []
      /\ t = [Header_prepared h; Cout_frame_too_large]
      /\ snd (loop_body a s i)
         = Continue {| frame_count := u32 (frame_count s + 1);
                       last_fps_time := last_fps_time s;
                       fps_counter := fps_counter s |}).
Proof.
  intros Hw Hc Hd h whole t. subst t.
  rewrite (loop_body_complete a s i color depth Hw). fold h.
  assert (Hp : create_packet a (header_junk i) h color depth = whole).
  { subst h whole. now apply create_packet_app. }
  split.
  { rewrite <- Hp. subst h. apply length_create_packet. }
  split; intro Hsz.
  - destruct (total_size a h >? udp_max_payload) eqn:E; [lia|].
    cbn [fst]. split.
    + cbn [datagrams]. rewrite datagrams_app, datagrams_fps_monitoring, Hp.
      destruct (sendto_result i <? 0); reflexivity.
    + intros [H|[H|H]]; try discriminate.
      apply in_app_or in H. destruct H as [H|H].
      * destruct (sendto_result i <? 0); cbn in H; intuition discriminate.
      * revert H. apply no_warning_fps_monitoring.
  - destruct (total_size a h >? udp_max_payload) eqn:E; [|lia].
    repeat split.
Qed.

Lemma C1_one_datagram_or_warning_witness :
  let i := Examples.answer (Some Examples.tiny_frameset) 5 42 7 in
  let s := initial_state 0 in
  datagrams (fst (loop_body Align8 s i))
  = [(NetworkFrame_image Align8 Examples.zero_junk
        (prepare_network_frame 0 5 (Examples.flat_frame 2 1 3 xaa)
           (Examples.flat_frame 2 1 2 x10))
      ++ repeat xaa 6 ++ repeat x10 4, 42)].
Proof.
  intros i s.
  refine (proj1 (proj1 (proj2 (C1_one_datagram_or_warning Align8 s i
    (Examples.flat_frame 2 1 3 xaa) (Examples.flat_frame 2 1 2 x10)
    eq_refl _ _)) _)).
  - vm_compute. reflexivity.
  - vm_compute. reflexivity.
  - vm_compute. discriminate.
Defined.

(** C1, refuted as stated: at the configured 424 by 240 streams the
    serialized frame has 508,824 bytes behind a 24-byte header (508,832
    behind a 32-byte one), more than 65,507, and the program hands no
    datagram to [sendto] for it: not eight fragments, none. *)
Lemma C1_counterexample_no_fragments :
  let i := Examples.answer (Some Examples.configured_frameset) 5 0 7 in
  let s := initial_state 0 in
  total_size Align4 (prepare_network_frame 0 5
     (Examples.flat_frame 424 240 3 x80) (Examples.flat_frame 424 240 2 x10))
  = 508824
  /\ datagrams (fst (loop_body Align4 s i)) = []
  /\ datagrams (fst (loop_body Align8 s i)) = []
  /\ ~ (8 <= length (datagrams (fst (loop_body Align4 s i))))%nat.
Proof.
  cbv zeta.
  assert (H4 : datagrams (fst (loop_body Align4 (initial_state 0)
     (Examples.answer (Some Examples.configured_frameset) 5 0 7))) = []).
  { vm_compute. reflexivity. }
  split; [vm_compute; reflexivity|].
  split; [exact H4|].
  split; [vm_compute; reflexivity|].
  rewrite H4. cbn. lia.
Qed.

(** ** The streaming loop *)

Section StreamLoop.

Variable a : abi.

Lemma loop_body_thrown (s : loop_state) (i : iteration) :
  wait_for_frames i = None -> loop_body a s i = ([], Thrown).
Proof. intro H. unfold loop_body. now rewrite H. Qed.

Lemma loop_body_incomplete (s : loop_state) (i : iteration) :
  incomplete i = true -> loop_body a s i = ([], Continue s).
Proof.
  unfold incomplete, loop_body.
  destruct (wait_for_frames i) as [[[c|] [d|]]|]; try discriminate;
    reflexivity.
Qed.

Lemma stream_loop_cons (s s' : loop_state) (i : iteration)
    (evs : list event) (rest : list iteration) :
  loop_body a s i = (evs, Continue s') ->
  stream_loop a s (i :: rest)
  = (evs ++ fst (stream_loop a s' rest), snd (stream_loop a s' rest)).
Proof.
  intro H. cbn [stream_loop]. rewrite H.
  destruct (stream_loop a s' rest). reflexivity.
Qed.

(** The head of the environment is a frameset that line 80 skips, as
    the equation [E] on [wait_for_frames] shows: drop it from the run. *)
Ltac skip_frameset E :=
  match goal with
  | |- context [stream_loop ?a ?s (?i :: ?rest)] =>
      let Hi := fresh "Hi" in
      assert (Hi : incomplete i = true)
        by (unfold incomplete; now rewrite E);
      rewrite (stream_loop_cons s s i [] rest (loop_body_incomplete s i Hi));
      cbn [app fst snd]
  end.

Lemma stream_loop_skips_incomplete (s : loop_state) (env : list iteration) :
  stream_loop a s env
  = stream_loop a s (filter (fun i => negb (incomplete i)) env).
Proof.
  revert s. induction env as [|i rest IH]; intro s; [reflexivity|].
  cbn [filter]. destruct (incomplete i) eqn:E; cbn [negb].
  - rewrite (stream_loop_cons s s i [] rest (loop_body_incomplete s i E)).
    rewrite <- IH. destruct (stream_loop a s rest). reflexivity.
  - cbn [stream_loop]. destruct (loop_body a s i) as [evs [s'|]];
      [rewrite IH|]; reflexivity.
Qed.

Lemma acquisitions_skip_incomplete (env : list iteration) :
  acquisitions env
  = acquisitions (filter (fun i => negb (incomplete i)) env).
Proof.
  induction env as [|i rest IH]; [reflexivity|].
  cbn [filter]. unfold incomplete at 1.
  cbn [acquisitions].
  destruct (wait_for_frames i) as [[[c|] [d|]]|] eqn:E; cbn [negb];
    cbn [acquisitions]; rewrite ?E, ?IH; reflexivity.
Qed.

Lemma headers_app (t u : list event) :
  headers (t ++ u) = headers t ++ headers u.
Proof.
  induction t as [|e t IH]; [reflexivity|].
  destruct e; cbn; rewrite ?IH; reflexivity.
Qed.

Lemma headers_fps_monitoring (s : loop_state) (now total : Z) :
  headers (fst (fps_monitoring s now total)) = [].
Proof.
  unfold fps_monitoring.
  destruct (Z.quot (now - last_fps_time s) 1000000000 >=? 1); reflexivity.
Qed.

Lemma frame_count_fps_monitoring (s : loop_state) (now total : Z) :
  frame_count (snd (fps_monitoring s now total)) = frame_count s.
Proof.
  unfold fps_monitoring.
  destruct (Z.quot (now - last_fps_time s) 1000000000 >=? 1); reflexivity.
Qed.

(** The headers of a run are those of its acquisitions, numbered from
    the frame counter on. *)
Lemma headers_stream_loop (s : loop_state) (env : list iteration) :
  headers (fst (stream_loop a s env))
  = numbered (frame_count s) (acquisitions env).
Proof.
  revert s. induction env as [|i rest IH]; intro s; [reflexivity|].
  cbn [acquisitions].
  destruct (wait_for_frames i) as [[[c|] [d|]]|] eqn:E.
  - pose proof (loop_body_complete a s i c d E) as Hb. cbv zeta in Hb.
    destruct (total_size a _ >? udp_max_payload) in Hb.
    + rewrite (stream_loop_cons _ _ _ _ rest Hb). cbn [fst].
      cbn [app headers numbered]. now rewrite IH.
    + rewrite (stream_loop_cons _ _ _ _ rest Hb). cbn [fst].
      cbn [app headers numbered]. rewrite !headers_app, IH.
      rewrite headers_fps_monitoring, frame_count_fps_monitoring.
      cbn [frame_count].
      destruct (sendto_result i <? 0); reflexivity.
  - skip_frameset E. apply IH.
  - skip_frameset E. apply IH.
  - skip_frameset E. apply IH.
  - cbn [stream_loop]. now rewrite (loop_body_thrown s i E).
Qed.

(** Two headers in a row: the second number is the first plus one, in
    32 bits. *)
Lemma numbered_consecutive (l : list (Z * video_frame * video_frame))
    (count : Z) (k : nat) (h1 h2 : NetworkFrame) :
  nth_error (numbered count l) k = Some h1 ->
  nth_error (numbered count l) (S k) = Some h2 ->
  frame_id h2 = u32 (frame_id h1 + 1).
Proof.
  revert count k. induction l as [|[[now c] d] r IH]; intros count k H1 H2.
  - destruct k; discriminate.
  - destruct k as [|k].
    + cbn in H1. injection H1 as <-.
      destruct r as [|[[now' c'] d'] r']; [discriminate|].
      cbn in H2. injection H2 as <-. reflexivity.
    + cbn [numbered nth_error] in H1, H2. exact (IH _ _ H1 H2).
Qed.

Lemma numbered_timestamp (l : list (Z * video_frame * video_frame))
    (count : Z) (k : nat) (h : NetworkFrame) :
  nth_error (numbered count l) k = Some h ->
  exists now, nth_error (map (fun x => fst (fst x)) l) k = Some now
              /\ timestamp h = u64 now.
Proof.
  revert count k. induction l as [|[[now c] d] r IH]; intros count k H.
  - destruct k; discriminate.
  - destruct k as [|k].
    + cbn in H. injection H as <-. exists now. split; reflexivity.
    + cbn [numbered nth_error] in H. cbn [map nth_error]. exact (IH _ _ H).
Qed.

Lemma numbered_in_range (l : list (Z * video_frame * video_frame))
    (count : Z) (k : nat) (h : NetworkFrame) :
  0 <= count < 2 ^ 32 ->
  nth_error (numbered count l) k = Some h ->
  0 <= frame_id h < 2 ^ 32.
Proof.
  revert count k. induction l as [|[[now c] d] r IH]; intros count k Hc H.
  - destruct k; discriminate.
  - destruct k as [|k].
    + cbn in H. injection H as <-. exact Hc.
    + cbn [numbered nth_error] in H.
      exact (IH _ _ (u32_range (count + 1)) H).
Qed.

End StreamLoop.

(** C10.  A frameset without its colour frame or without its depth
    frame leaves the iteration at line 80, before the frame counter is
    touched: the iteration does nothing and keeps the state, so a run
    with such framesets is the run without them, and the headers of a
    run are exactly those of its complete framesets, numbered
    consecutively from the frame counter on. *)
Theorem C10_incomplete_frameset_skipped (a : abi) (s : loop_state)
    (env : list iteration) :
  (forall clock junk ret steady depth,
      loop_body a s
        {| wait_for_frames :=
             Some {| get_color_frame := None; get_depth_frame := depth |};
           high_resolution_now := clock; header_junk := junk;
           sendto_result := ret; steady_now := steady |}
      = ([], Continue s))
  /\ (forall clock junk ret steady color,
      loop_body a s
        {| wait_for_frames :=
             Some {| get_color_frame := color; get_depth_frame := None |};
           high_resolution_now := clock; header_junk := junk;
           sendto_result := ret; steady_now := steady |}
      = ([], Continue s))
  /\ stream_loop a s env
     = stream_loop a s (filter (fun i => negb (incomplete i)) env)
  /\ headers (fst (stream_loop a s env))
     = numbered (frame_count s)
         (acquisitions (filter (fun i => negb (incomplete i)) env)).
Proof.
  split; [reflexivity|].
  split; [intros clock junk ret steady [c|]; reflexivity|].
  split; [apply stream_loop_skips_incomplete|].
  rewrite headers_stream_loop. f_equal. apply acquisitions_skip_incomplete.
Qed.

(** C5 (as amended).  Of two successive acquisitions of a run, the
    second gets the frame id of the first plus one modulo [2^32]: plus
    one exactly, unless the first id is [2^32 - 1], after which the id
    is 0.  The timestamp of each is the reading of
    [high_resolution_clock] taken while its header is filled in,
    converted to 64 unsigned bits; the program does nothing else to
    order the timestamps. *)
Theorem C5_frame_id_successor (a : abi) (s : loop_state)
    (env : list iteration) (k : nat) (h1 h2 : NetworkFrame) :
  0 <= frame_count s < 2 ^ 32 ->
  nth_error (headers (fst (stream_loop a s env))) k = Some h1 ->
  nth_error (headers (fst (stream_loop a s env))) (S k) = Some h2 ->
  frame_id h2 = (frame_id h1 + 1) mod 2 ^ 32
  /\ (frame_id h1 <> 2 ^ 32 - 1 -> frame_id h2 = frame_id h1 + 1)
  /\ (frame_id h1 = 2 ^ 32 - 1 -> frame_id h2 = 0)
  /\ exists now1 now2,
       nth_error (map (fun x => fst (fst x)) (acquisitions env)) k
         = Some now1
       /\ nth_error (map (fun x => fst (fst x)) (acquisitions env)) (S k)
         = Some now2
       /\ timestamp h1 = now1 mod 2 ^ 64
       /\ timestamp h2 = now2 mod 2 ^ 64.
Proof.
  intros Hs H1 H2. rewrite headers_stream_loop in H1, H2.
  pose proof (numbered_consecutive _ _ _ _ _ H1 H2) as Hid.
  pose proof (numbered_in_range _ _ _ _ Hs H1) as Hr.
  unfold u32 in Hid.
  split; [exact Hid|].
  split; [intro Hne; rewrite Hid; apply Z.mod_small; lia|].
  split; [intro He; rewrite Hid, He; reflexivity|].
  destruct (numbered_timestamp _ _ _ _ H1) as (n1 & Hn1 & Ht1).
  destruct (numbered_timestamp _ _ _ _ H2) as (n2 & Hn2 & Ht2).
  exists n1, n2. repeat split; assumption.
Qed.

Lemma C5_frame_id_successor_witness :
  let env := [Examples.answer (Some Examples.tiny_frameset) 1000 10 0;
              Examples.answer (Some Examples.tiny_frameset) 2000 10 0] in
  exists h1 h2,
    nth_error (headers (fst (stream_loop Align8 (initial_state 0) env))) 0
      = Some h1
    /\ nth_error (headers (fst (stream_loop Align8 (initial_state 0) env))) 1
      = Some h2
    /\ frame_id h2 = frame_id h1 + 1.
Proof.
  intro env.
  eexists. eexists. split; [reflexivity|]. split; [reflexivity|].
  refine (proj1 (proj2 (C5_frame_id_successor Align8 (initial_state 0) env
    0%nat _ _ _ eq_refl eq_refl)) _).
  - cbn. lia.
  - cbn. lia.
Defined.

(** C5, refuted as stated.  The clock behind [high_resolution_clock]
    may be set back between two frames: the second timestamp is then
    smaller than the first.  And the frame id after 4294967295 is 0. *)
Lemma C5_counterexample_clock_and_wrap :
  map timestamp
    (headers (fst (main Align8 2 3 true 0
       (Examples.warm_up
          ++ [Examples.answer (Some Examples.tiny_frameset) 2000 10 0;
              Examples.answer (Some Examples.tiny_frameset) 1000 10 0]))))
  = [2000; 1000]
  /\ ~ (2000 < 1000)
  /\ map frame_id
       (headers (fst (stream_loop Align8
          {| frame_count := 4294967295; last_fps_time := 0;
             fps_counter := 0 |}
          [Examples.answer (Some Examples.tiny_frameset) 1000 10 0;
           Examples.answer (Some Examples.tiny_frameset) 2000 10 0])))
     = [4294967295; 0]
  /\ 0 <> 4294967295 + 1.
Proof.
  split; [vm_compute; reflexivity|].
  split; [lia|].
  split; [vm_compute; reflexivity|].
  lia.
Qed.

(** C3, the program at a device error.  When [pipe.start] throws
    [rs2::error] (no camera), [main] prints the error, closes the socket
    and returns 0; and so it does when [wait_for_frames] throws during
    the stabilization or in the loop: once the socket is open, [main]
    either runs on or returns 0.  The only nonzero status is that of the
    two early returns of -1 (usage, [socket]). *)
Theorem C3_device_error_returns_zero (a : abi) (t0 : Z)
    (env : list iteration) :
  main a 2 3 false t0 env = ([Cerr_realsense_error; Close_sock], Exited 0)
  /\ main a 2 3 true t0 [Examples.answer None 0 0 0]
     = ([Cout_started; Cerr_realsense_error; Close_sock], Exited 0)
  /\ snd (main a 2 3 true t0
            (Examples.warm_up ++ [Examples.answer None 0 0 0]))
     = Exited 0
  /\ (forall pipe_start,
        snd (main a 2 3 pipe_start t0 env) = Running
        \/ snd (main a 2 3 pipe_start t0 env) = Exited 0)
  /\ exit_status 0 = 0
  /\ snd (main a 2 (-1) true t0 env) = Exited (-1)
  /\ snd (main a 1 3 true t0 env) = Exited (-1)
  /\ exit_status (-1) = 255.
Proof.
  do 3 (split; [reflexivity|]).
  split; [|repeat split].
  intro pipe_start. unfold main. cbn [Z.eqb Pos.eqb negb Z.ltb Z.compare].
  destruct (try_block a pipe_start t0 env) as [t [|]]; cbn; auto.
Qed.

(** C6.  When [sendto] fails on a packet, the iteration makes that one
    call and no other, prints the diagnostic of [perror], and goes on as
    after a successful send: the state it leaves does not depend on the
    result of [sendto], and the loop continues from it with the next
    frameset. *)
Theorem C6_send_failure_not_fatal (a : abi) (s : loop_state)
    (i : iteration) (color depth : video_frame) (rest : list iteration) :
  wait_for_frames i
    = Some {| get_color_frame := Some color; get_depth_frame := Some depth |} ->
  total_size a (prepare_network_frame (frame_count s)
                  (high_resolution_now i) color depth) <= udp_max_payload ->
  sendto_result i < 0 ->
  let h := prepare_network_frame (frame_count s) (high_resolution_now i)
             color depth in
  let packet := create_packet a (header_junk i) h color depth in
  exists report s',
    loop_body a s i
    = (Header_prepared h :: Sendto packet (sendto_result i)
         :: Perror_sendto :: report, Continue s')
    /\ datagrams report = []
    /\ (forall ret,
         snd (loop_body a s (with_sendto_result ret i)) = Continue s')
    /\ stream_loop a s (i :: rest)
       = (Header_prepared h :: Sendto packet (sendto_result i)
            :: Perror_sendto :: report ++ fst (stream_loop a s' rest),
          snd (stream_loop a s' rest)).
Proof.
  intros Hw Hsz Hret h packet.
  pose proof (loop_body_complete a s i color depth Hw) as Hb.
  cbv zeta in Hb. fold h in Hb. fold h in Hsz. fold packet in Hb.
  destruct (total_size a h >? udp_max_payload) eqn:E; [lia|].
  destruct (sendto_result i <? 0) eqn:F; [|lia].
  cbn [app] in Hb.
  eexists. eexists. split; [exact Hb|].
  split; [apply datagrams_fps_monitoring|].
  split.
  - intro ret.
    rewrite (loop_body_complete a s (with_sendto_result ret i) color depth Hw).
    cbn [with_sendto_result high_resolution_now steady_now]. fold h.
    rewrite E. reflexivity.
  - exact (stream_loop_cons a _ _ _ _ rest Hb).
Qed.

Lemma C6_send_failure_not_fatal_witness :
  let failed := Examples.answer (Some Examples.tiny_frameset) 1000 (-1) 0 in
  let next := Examples.answer (Some Examples.tiny_frameset) 2000 42 0 in
  exists report s',
    stream_loop Align8 (initial_state 0) [failed; next]
    = (Header_prepared
         (prepare_network_frame 0 1000 (Examples.flat_frame 2 1 3 xaa)
            (Examples.flat_frame 2 1 2 x10))
         :: Sendto
              (create_packet Align8 Examples.zero_junk
                 (prepare_network_frame 0 1000
                    (Examples.flat_frame 2 1 3 xaa)
                    (Examples.flat_frame 2 1 2 x10))
                 (Examples.flat_frame 2 1 3 xaa)
                 (Examples.flat_frame 2 1 2 x10)) (-1)
         :: Perror_sendto
         :: report ++ fst (stream_loop Align8 s' [next]),
       snd (stream_loop Align8 s' [next])).
Proof.
  intros failed next.
  destruct (C6_send_failure_not_fatal Align8 (initial_state 0) failed
    (Examples.flat_frame 2 1 3 xaa) (Examples.flat_frame 2 1 2 x10) [next]
    eq_refl) as (report & s' & _ & _ & _ & H).
  - vm_compute. discriminate.
  - cbn. lia.
  - exists report, s'. exact H.
Defined.

(** ** Stabilization *)

Section Stabilization.

Lemma stabilization_app (pre rest : list iteration) :
  forallb delivers pre = true ->
  stabilization (length pre) (pre ++ rest) = Stable rest.
Proof.
  induction pre as [|i pre IH]; intro H; [reflexivity|].
  cbn [forallb] in H. apply andb_true_iff in H. destruct H as [Hi Hp].
  cbn [length app stabilization]. unfold delivers in Hi.
  destruct (wait_for_frames i); [now apply IH|discriminate].
Qed.

Lemma stabilization_short (n : nat) (env : list iteration) :
  (length env <= n)%nat ->
  stabilization n env = Stable [] \/ stabilization n env = Stabilizing
  \/ stabilization n env = Stabilize_thrown.
Proof.
  revert env. induction n as [|n IH]; intros env H.
  - destruct env; [left; reflexivity|cbn in H; lia].
  - destruct env as [|i env]; [right; left; reflexivity|].
    cbn [stabilization]. destruct (wait_for_frames i).
    + apply IH. cbn in H. lia.
    + right; right; reflexivity.
Qed.

Lemma saver_stabilization_app (pre rest : list Saver.iteration) (done : Z) :
  forallb Saver.delivers pre = true ->
  Saver.stabilization (length pre) done (pre ++ rest)
  = (map (fun k => Saver.Cout_stabilizing (done + Z.of_nat k))
       (seq 1 (length pre)),
     Saver.Stable rest).
Proof.
  revert done. induction pre as [|i pre IH]; intros done H; [reflexivity|].
  cbn [forallb] in H. apply andb_true_iff in H. destruct H as [Hi Hp].
  cbn [length app Saver.stabilization]. unfold Saver.delivers in Hi.
  destruct (Saver.wait_for_frames i); [|discriminate].
  rewrite (IH (done + 1) Hp). cbn [seq map]. f_equal. f_equal.
  rewrite <- (seq_shift (length pre) 1), map_map. apply map_ext. intro k.
  f_equal. lia.
Qed.

Lemma saver_stabilization_short (n : nat) (done : Z)
    (env : list Saver.iteration) :
  (length env <= n)%nat ->
  snd (Saver.stabilization n done env) = Saver.Stable []
  \/ snd (Saver.stabilization n done env) = Saver.Stabilizing
  \/ snd (Saver.stabilization n done env) = Saver.Stabilize_thrown.
Proof.
  revert env done. induction n as [|n IH]; intros env done H.
  - destruct env; [left; reflexivity|cbn in H; lia].
  - destruct env as [|i env]; [right; left; reflexivity|].
    cbn [Saver.stabilization]. destruct (Saver.wait_for_frames i).
    + specialize (IH env (done + 1)).
      destruct (Saver.stabilization n (done + 1) env). apply IH.
      cbn in H. lia.
    + right; right; reflexivity.
Qed.

Lemma saver_files_app (t u : list Saver.event) :
  Saver.files (t ++ u) = Saver.files t ++ Saver.files u.
Proof.
  induction t as [|e t IH]; [reflexivity|].
  destruct e; cbn; rewrite ?IH; reflexivity.
Qed.

Lemma saver_files_stabilization (n : nat) (done : Z)
    (env : list Saver.iteration) :
  Saver.files (fst (Saver.stabilization n done env)) = [].
Proof.
  revert done env. induction n as [|n IH]; intros done env; [reflexivity|].
  destruct env as [|i env]; [reflexivity|].
  cbn [Saver.stabilization]. destruct (Saver.wait_for_frames i);
    [|reflexivity].
  specialize (IH (done + 1) env).
  destruct (Saver.stabilization n (done + 1) env). exact IH.
Qed.

End Stabilization.

(** C7.  In both programs the first thirty framesets that the camera
    delivers are waited for and dropped: the run on thirty framesets
    followed by [rest] is the run of the loop on [rest] alone, started
    in its initial state, whatever the thirty were; and on thirty
    framesets or fewer no header is filled in, no datagram is sent and no
    file is written. *)
Theorem C7_stabilization_discards_thirty (a : abi) (fd t0 start : Z)
    (pre rest short : list iteration)
    (pre' rest' short' : list Saver.iteration) :
  0 <= fd ->
  length pre = 30%nat -> forallb delivers pre = true ->
  length pre' = 30%nat -> forallb Saver.delivers pre' = true ->
  (length short <= 30)%nat -> (length short' <= 30)%nat ->
  main a 2 fd true t0 (pre ++ rest)
  = after_try (Cout_started :: fst (stream_loop a (initial_state t0) rest),
               snd (stream_loop a (initial_state t0) rest))
  /\ Saver.main true start (pre' ++ rest')
     = (Saver.directories
          ++ map (fun k => Saver.Cout_stabilizing (Z.of_nat k)) (seq 1 30)
          ++ fst (Saver.capture_loop start 0 rest'),
        snd (Saver.capture_loop start 0 rest'))
  /\ headers (fst (main a 2 fd true t0 short)) = []
  /\ datagrams (fst (main a 2 fd true t0 short)) = []
  /\ Saver.files (fst (Saver.main true start short')) = [].
Proof.
  intros Hfd Hlen Hok Hlen' Hok' Hshort Hshort'.
  assert (Hfd' : (fd <? 0) = false) by lia.
  split; [|split].
  - unfold main, try_block. cbn [Z.eqb negb Pos.eqb]. rewrite Hfd'.
    rewrite <- Hlen, (stabilization_app pre rest Hok).
    destruct (stream_loop a (initial_state t0) rest). reflexivity.
  - unfold Saver.main.
    rewrite <- Hlen' at 1.
    rewrite (saver_stabilization_app pre' rest' 0 Hok'), Hlen'.
    destruct (Saver.capture_loop start 0 rest'). reflexivity.
  - assert (Hstream :
      headers (fst (main a 2 fd true t0 short)) = []
      /\ datagrams (fst (main a 2 fd true t0 short)) = []).
    { unfold main, try_block. cbn [Z.eqb negb Pos.eqb]. rewrite Hfd'.
      destruct (stabilization_short 30 short Hshort) as [H|[H|H]];
        rewrite H; split; reflexivity. }
    destruct Hstream as [H1 H2]. split; [exact H1|]. split; [exact H2|].
    unfold Saver.main.
    pose proof (saver_files_stabilization 30 0 short') as Hf.
    destruct (saver_stabilization_short 30 0 short' Hshort') as [H|[H|H]];
      destruct (Saver.stabilization 30 0 short') as [t r]; cbn [snd fst] in *;
      subst r; cbn [fst Saver.capture_loop];
      rewrite ?saver_files_app, Hf; reflexivity.
Qed.

Lemma C7_stabilization_discards_thirty_witness :
  let frame := Examples.answer (Some Examples.tiny_frameset) 1000 10 0 in
  let saved := Examples.saver_answer 5 1700000000123
                 (Some Examples.color_and_depth) in
  main Align8 2 3 true 0 (Examples.warm_up ++ [frame])
  = after_try (Cout_started
                 :: fst (stream_loop Align8 (initial_state 0) [frame]),
               snd (stream_loop Align8 (initial_state 0) [frame]))
  /\ Saver.files (fst (Saver.main true 0 (Examples.saver_warm_up ++ [saved])))
     = Saver.files (fst (Saver.capture_loop 0 0 [saved]))
  /\ Saver.files (fst (Saver.main true 0 Examples.saver_warm_up)) = [].
Proof.
  intros frame saved.
  destruct (C7_stabilization_discards_thirty Align8 3 0 0
    Examples.warm_up [frame] Examples.warm_up
    Examples.saver_warm_up [saved] Examples.saver_warm_up)
    as (H1 & H2 & _ & _ & H5).
  - lia.
  - reflexivity.
  - reflexivity.
  - reflexivity.
  - reflexivity.
  - cbn. lia.
  - cbn. lia.
  - split; [exact H1|]. split; [|exact H5].
    rewrite H2. cbn [fst]. rewrite !saver_files_app. reflexivity.
Defined.

(** ** The FPS monitoring *)

Section FpsMonitoring.

Variable a : abi.

Lemma reports_app (t u : list event) :
  reports (t ++ u) = reports t ++ reports u.
Proof.
  induction t as [|e t IH]; [reflexivity|].
  destruct e; cbn; rewrite ?IH; reflexivity.
Qed.

(** An iteration that reaches the monitoring: one header, one call of
    [sendto], then the monitoring. *)
Lemma loop_body_recorded (s : loop_state) (i : iteration) (total : Z) :
  wire_size a i = Some total -> total <= udp_max_payload ->
  let s1 := {| frame_count := u32 (frame_count s + 1);
               last_fps_time := last_fps_time s;
               fps_counter := fps_counter s |} in
  exists h packet,
    loop_body a s i
    = (Header_prepared h :: Sendto packet (sendto_result i)
         :: (if sendto_result i <? 0 then [Perror_sendto] else [])
         ++ fst (fps_monitoring s1 (steady_now i) total),
       Continue (snd (fps_monitoring s1 (steady_now i) total))).
Proof.
  intros Hw Hsz s1. unfold wire_size in Hw.
  destruct (wait_for_frames i) as [[[c|] [d|]]|] eqn:E; try discriminate.
  injection Hw as Hw.
  pose proof (loop_body_complete a s i c d E) as Hb. cbv zeta in Hb.
  change (total_size a (prepare_network_frame (frame_count s)
            (high_resolution_now i) c d))
    with (total_size a (prepare_network_frame 0 0 c d)) in Hb.
  rewrite Hw in Hb.
  destruct (total >? udp_max_payload) eqn:F; [lia|].
  eexists. eexists. exact Hb.
Qed.

Lemma window_report (quiet : list iteration) (s : loop_state)
    (last : iteration) (rest : list iteration) (total : Z) :
  forallb (fun i => recorded a i
                    && (Z.quot (steady_now i - last_fps_time s) 1000000000
                          <? 1)) quiet = true ->
  wire_size a last = Some total -> total <= udp_max_payload ->
  1 <= Z.quot (steady_now last - last_fps_time s) 1000000000 ->
  exists t s',
    stream_loop a s (quiet ++ last :: rest)
    = (t ++ fst (stream_loop a s' rest), snd (stream_loop a s' rest))
    /\ reports t
       = [(fps_counter s + Z.of_nat (length quiet) + 1, total / 1024)]
    /\ length (datagrams t) = S (length quiet)
    /\ fps_counter s' = 0
    /\ last_fps_time s' = steady_now last.
Proof.
  revert s. induction quiet as [|i quiet IH]; intros s Hq Hw Hsz Hdue.
  - destruct (loop_body_recorded s last total Hw Hsz) as (h & p & Hb).
    cbv zeta in Hb. unfold fps_monitoring in Hb.
    cbn [last_fps_time fps_counter frame_count] in Hb.
    destruct (Z.quot (steady_now last - last_fps_time s) 1000000000 >=? 1)
      eqn:E; [|lia].
    cbn [fst snd] in Hb.
    eexists. eexists. split; [exact (stream_loop_cons a _ _ _ _ rest Hb)|].
    split; [|split; [|split; reflexivity]].
    + cbn [reports]. rewrite reports_app.
      destruct (sendto_result last <? 0); cbn; repeat f_equal; lia.
    + cbn [datagrams length]. rewrite datagrams_app.
      destruct (sendto_result last <? 0); reflexivity.
  - cbn [forallb] in Hq. apply andb_true_iff in Hq. destruct Hq as [Hi Hq].
    apply andb_true_iff in Hi. destruct Hi as [Hrec Hquiet].
    unfold recorded in Hrec.
    destruct (wire_size a i) as [n|] eqn:En; [|discriminate].
    assert (Hn : n <= udp_max_payload) by lia.
    destruct (loop_body_recorded s i n En Hn) as (h & p & Hb).
    cbv zeta in Hb. unfold fps_monitoring in Hb.
    cbn [last_fps_time fps_counter frame_count] in Hb.
    destruct (Z.quot (steady_now i - last_fps_time s) 1000000000 >=? 1)
      eqn:E; [lia|].
    cbn [fst snd] in Hb. rewrite app_nil_r in Hb.
    set (s2 := {| frame_count := u32 (frame_count s + 1);
                  last_fps_time := last_fps_time s;
                  fps_counter := fps_counter s + 1 |}) in *.
    destruct (IH s2 Hq Hw Hsz Hdue) as (t & s' & Hl & Hr & Hd & Hc & Ht).
    exists ((Header_prepared h :: Sendto p (sendto_result i)
               :: (if sendto_result i <? 0 then [Perror_sendto] else []))
            ++ t), s'.
    split; [|split; [|split; [|split; assumption]]].
    + cbn [app]. rewrite (stream_loop_cons a _ _ _ _ (quiet ++ last :: rest) Hb).
      rewrite Hl. cbn [fst snd]. rewrite <- !app_assoc. reflexivity.
    + rewrite reports_app, Hr. subst s2. cbn [fps_counter length].
      destruct (sendto_result i <? 0); cbn [reports app];
        do 2 f_equal; lia.
    + rewrite datagrams_app, length_app, Hd.
      destruct (sendto_result i <? 0); reflexivity.
Qed.

End FpsMonitoring.

(** C8 (as amended).  The monitor counts the iterations that reach the
    call of [sendto] (successful or failed alike) since its last report,
    and reports from inside the loop at the first such iteration whose
    reading of [steady_clock] is one whole second or more after the last
    report: the report carries that count and the size of the current
    packet in KiB, [total_size / 1024], and the next window starts at
    that reading with the count at 0.  The count is divided by no
    duration, and no byte rate is computed. *)
Theorem C8_report_once_per_window (a : abi) (s : loop_state)
    (quiet : list iteration) (last : iteration) (rest : list iteration)
    (total : Z) :
  forallb (fun i => recorded a i
                    && (Z.quot (steady_now i - last_fps_time s) 1000000000
                          <? 1)) quiet = true ->
  wire_size a last = Some total -> total <= udp_max_payload ->
  1 <= Z.quot (steady_now last - last_fps_time s) 1000000000 ->
  exists t s',
    stream_loop a s (quiet ++ last :: rest)
    = (t ++ fst (stream_loop a s' rest), snd (stream_loop a s' rest))
    /\ reports t
       = [(fps_counter s + Z.of_nat (length quiet) + 1, total / 1024)]
    /\ length (datagrams t) = S (length quiet)
    /\ fps_counter s' = 0
    /\ last_fps_time s' = steady_now last.
Proof. apply window_report. Qed.

(** Thirty packets spread evenly over one second, the window having
    started at 0: one report, of 30 frames and 2 KiB. *)
Lemma C8_report_once_per_window_witness :
  exists t s',
    stream_loop Align8 (initial_state 0) Examples.one_second_of_frames
    = (t ++ fst (stream_loop Align8 s' []), snd (stream_loop Align8 s' []))
    /\ reports t = [(30, 2)]
    /\ length (datagrams t) = 30%nat
    /\ fps_counter s' = 0
    /\ last_fps_time s' = 1000000000.
Proof.
  apply (C8_report_once_per_window Align8 (initial_state 0)
    (firstn 29 Examples.one_second_of_frames)
    (Examples.answer (Some Examples.kilobyte_frameset) 30 2080 1000000000)
    [] 2080).
  - reflexivity.
  - reflexivity.
  - unfold udp_max_payload. lia.
  - cbn. lia.
Defined.

(** C8, refuted as stated: after the stabilization, thirty packets of
    2080 bytes spread over one second give one report, of 30 frames and
    of 2, the KiB of the last packet; 62,400 bytes went to [sendto] in
    that second, and the report has no figure for them. *)
Lemma C8_counterexample_no_byte_rate :
  reports (fst (main Align8 2 3 true 0
     (Examples.warm_up ++ Examples.one_second_of_frames))) = [(30, 2)]
  /\ bytes_handed_over (fst (main Align8 2 3 true 0
       (Examples.warm_up ++ Examples.one_second_of_frames))) = 62400
  /\ 2 <> 62400.
Proof.
  split; [vm_compute; reflexivity|].
  split; [vm_compute; reflexivity|].
  discriminate.
Qed.

Lemma C2_header_is_struct_image_witness :
  let color := Examples.flat_frame 1 1 3 xaa in
  let depth := Examples.flat_frame 1 1 2 x10 in
  let h := prepare_network_frame 7 1000 color depth in
  create_packet Align4 Examples.zero_junk h color depth
  = NetworkFrame_image Align4 Examples.zero_junk h
      ++ [xaa; xaa; xaa] ++ [x10; x10]
  /\ length (NetworkFrame_image Align4 Examples.zero_junk h) = 24%nat.
Proof.
  intros color depth h.
  destruct (C2_header_is_struct_image Align4 Examples.zero_junk 7 1000
    color depth) as (H1 & H2 & _).
  - lia.
  - vm_compute. reflexivity.
  - vm_compute. reflexivity.
  - split; [exact H1 | exact H2].
Defined.

(** C2, refuted as stated: under the 8-byte alignment of [uint64_t] the
    header of a packet has 32 bytes, the payload starts at offset 32,
    and what stands at offset 24 is [depth_size]. *)
Lemma C2_counterexample_header_32_bytes :
  let color := Examples.flat_frame 1 1 3 xaa in
  let depth := Examples.flat_frame 1 1 2 x10 in
  let h := prepare_network_frame 7 1000 color depth in
  let packet := create_packet Align8 Examples.zero_junk h color depth in
  length (NetworkFrame_image Align8 Examples.zero_junk h) = 32%nat
  /\ length (NetworkFrame_image Align8 Examples.zero_junk h) <> 24%nat
  /\ length packet = 37%nat
  /\ skipn 32 packet = [xaa; xaa; xaa; x10; x10]
  /\ skipn 24 packet
     = [x02; x00; x00; x00; x00; x00; x00; x00; xaa; xaa; xaa; x10; x10]
  /\ skipn 24 packet <> [xaa; xaa; xaa; x10; x10].
Proof.
  cbv zeta.
  split; [reflexivity|].
  split; [vm_compute; discriminate|].
  split; [reflexivity|].
  split; [reflexivity|].
  split; [vm_compute; reflexivity|].
  vm_compute. discriminate.
Qed.



(** ** File names of the saving program *)

Section FileNames.

Import String Ascii.

Lemma string_length_append (s u : string) :
  String.length (s ++ u)%string = (String.length s + String.length u)%nat.
Proof. induction s as [|c s IH]; cbn; [reflexivity|now rewrite IH]. Qed.

Lemma length_fill (c : Ascii.ascii) (n : nat) :
  String.length (Saver.fill c n) = n.
Proof. induction n as [|n IH]; cbn; [reflexivity|now rewrite IH]. Qed.

(** A number below [10^k] has at most [k] digits, and at least one. *)
Lemma length_digits (fuel : nat) :
  forall (k : nat) (n : Z),
    (1 <= k <= fuel)%nat -> 0 <= n < 10 ^ Z.of_nat k ->
    (1 <= String.length (Saver.digits fuel n) <= k)%nat.
Proof.
  induction fuel as [|f IH]; intros k n Hk Hn; [lia|].
  cbn [Saver.digits]. destruct (n <? 10) eqn:E.
  - cbn. lia.
  - rewrite string_length_append. cbn [String.length].
    assert (Hk2 : (2 <= k)%nat).
    { destruct k as [|[|k]]; [lia| |lia]. cbn in Hn. lia. }
    assert (Hdiv : 0 <= n / 10 < 10 ^ Z.of_nat (k - 1)).
    { split; [apply Z.div_pos; lia|].
      apply Z.div_lt_upper_bound; [lia|].
      rewrite <- Z.pow_succ_r by lia.
      replace (Z.succ (Z.of_nat (k - 1))) with (Z.of_nat k) by lia. lia. }
    specialize (IH (k - 1)%nat (n / 10) ltac:(lia) Hdiv). lia.
Qed.

Lemma length_frame_number (n : Z) :
  0 <= n < 1000000 ->
  String.length (Saver.setfill_setw "0"%char 6 (Saver.show_int n)) = 6%nat.
Proof.
  intro H. unfold Saver.setfill_setw, Saver.show_int.
  destruct (n <? 0) eqn:E; [lia|].
  rewrite string_length_append, length_fill.
  pose proof (length_digits 20 6 n ltac:(lia) ltac:(cbn; lia)). lia.
Qed.

Lemma saved_files_named (count timestamp : Z) (f : Saver.frame)
    (name : string) :
  In name (Saver.files (Saver.save_frame count timestamp f)) ->
  exists dir stream ext,
    In (dir, stream, ext) Saver.saved_as
    /\ name = Saver.create_filename dir stream count timestamp ext.
Proof.
  unfold Saver.save_frame.
  destruct (Saver.is_video_frame f); [|intros []].
  destruct (Saver.stream_type f); cbn [Saver.files In];
    intros H; repeat destruct H as [H|H]; try contradiction; subst name;
    do 3 eexists; (split; [|reflexivity]); cbn; tauto.
Qed.

Lemma files_save_frameset (count timestamp elapsed : Z)
    (frames : list Saver.frame) :
  Saver.files (Saver.save_frameset count timestamp elapsed frames)
  = flat_map (fun f => Saver.files (Saver.save_frame count timestamp f))
      frames.
Proof.
  unfold Saver.save_frameset. rewrite saver_files_app.
  destruct (Z.rem count 30 =? 0); cbn [Saver.files]; rewrite app_nil_r;
    (induction frames as [|f frames IH]; [reflexivity|];
     cbn [flat_map]; now rewrite saver_files_app, IH).
Qed.


End FileNames.

(** * Further properties of the streamer *)

Section StreamerRun.

Variable a : abi.

(** What an iteration can leave behind: nothing, or a header with the
    warning, or a header with one call of [sendto], its diagnostic and
    the report. *)
Lemma loop_body_cases (s : loop_state) (i : iteration) :
  loop_body a s i = ([], Thrown) /\ wait_for_frames i = None
  \/ loop_body a s i = ([], Continue s) /\ incomplete i = true
  \/ exists h color depth,
       wait_for_frames i
         = Some {| get_color_frame := Some color;
                   get_depth_frame := Some depth |}
       /\ h = prepare_network_frame (frame_count s)
                (high_resolution_now i) color depth
       /\ let s1 := {| frame_count := u32 (frame_count s + 1);
                       last_fps_time := last_fps_time s;
                       fps_counter := fps_counter s |} in
          (udp_max_payload < total_size a h
           /\ loop_body a s i
              = ([Header_prepared h; Cout_frame_too_large], Continue s1)
           \/ total_size a h <= udp_max_payload
              /\ loop_body a s i
                 = (Header_prepared h
                      :: Sendto (create_packet a (header_junk i) h color depth)
                           (sendto_result i)
                      :: (if sendto_result i <? 0 then [Perror_sendto]
                          else [])
                      ++ fst (fps_monitoring s1 (steady_now i)
                                (total_size a h)),
                    Continue (snd (fps_monitoring s1 (steady_now i)
                                     (total_size a h))))).
Proof.
  destruct (wait_for_frames i) as [[[c|] [d|]]|] eqn:E.
  - right; right. exists (prepare_network_frame (frame_count s)
      (high_resolution_now i) c d), c, d.
    split; [reflexivity|]. split; [reflexivity|].
    pose proof (loop_body_complete a s i c d E) as Hb. cbv zeta in *.
    destruct (total_size a _ >? udp_max_payload) eqn:F in Hb.
    + left. split; [lia|exact Hb].
    + right. split; [lia|exact Hb].
  - right; left. assert (Hi : incomplete i = true)
      by (unfold incomplete; now rewrite E).
    split; [now apply loop_body_incomplete|exact Hi].
  - right; left. assert (Hi : incomplete i = true)
      by (unfold incomplete; now rewrite E).
    split; [now apply loop_body_incomplete|exact Hi].
  - right; left. assert (Hi : incomplete i = true)
      by (unfold incomplete; now rewrite E).
    split; [now apply loop_body_incomplete|exact Hi].
  - left. split; [now apply loop_body_thrown|reflexivity].
Qed.

(** The loop is left exactly when [wait_for_frames] throws. *)
Lemma stream_loop_thrown (s : loop_state) (env : list iteration) :
  snd (stream_loop a s env) = negb (forallb delivers env).
Proof.
  revert s. induction env as [|i rest IH]; intro s; [reflexivity|].
  cbn [forallb].
  assert (Hd : delivers i
               = match wait_for_frames i with
                 | Some _ => true
                 | None => false
                 end) by reflexivity.
  destruct (loop_body_cases s i) as [[Hb Hw]|[[Hb Hi]|(h & c & d & Hw & _ & Hb)]].
  - cbn [stream_loop]. rewrite Hb, Hd, Hw. reflexivity.
  - rewrite (stream_loop_cons a _ _ _ _ rest Hb). cbn [snd]. rewrite IH, Hd.
    unfold incomplete in Hi.
    destruct (wait_for_frames i); [reflexivity|discriminate].
  - rewrite Hd, Hw. cbv zeta in Hb. cbn [andb].
    destruct Hb as [[_ Hb]|[_ Hb]];
      rewrite (stream_loop_cons a _ _ _ _ rest Hb); cbn [snd]; apply IH.
Qed.

Lemma stabilization_delivers (n : nat) (env : list iteration) :
  match stabilization n env with
  | Stable rest => forallb delivers env = forallb delivers rest
  | Stabilizing => forallb delivers env = true
  | Stabilize_thrown => forallb delivers env = false
  end.
Proof.
  revert env. induction n as [|n IH]; intro env; [reflexivity|].
  destruct env as [|i rest]; [reflexivity|].
  cbn [stabilization forallb].
  assert (Hd : delivers i
               = match wait_for_frames i with
                 | Some _ => true
                 | None => false
                 end) by reflexivity.
  destruct (wait_for_frames i); rewrite Hd; [|reflexivity].
  specialize (IH rest). destruct (stabilization n rest); exact IH.
Qed.

(** The stabilization leaves a tail of the environment. *)
Lemma stabilization_suffix (n : nat) (env rest : list iteration) :
  stabilization n env = Stable rest -> exists pre, env = pre ++ rest.
Proof.
  revert env. induction n as [|n IH]; intros env H.
  - injection H as <-. exists []. reflexivity.
  - destruct env as [|i env]; [discriminate|]. cbn [stabilization] in H.
    destruct (wait_for_frames i); [|discriminate].
    destruct (IH env H) as (pre & ->). exists (i :: pre). reflexivity.
Qed.

Lemma try_block_thrown (t0 : Z) (env : list iteration) :
  snd (try_block a true t0 env) = negb (forallb delivers env).
Proof.
  unfold try_block. pose proof (stabilization_delivers 30 env) as H.
  destruct (stabilization 30 env) as [rest| |]; rewrite H; try reflexivity.
  rewrite <- (stream_loop_thrown (initial_state t0) rest).
  destruct (stream_loop a (initial_state t0) rest). reflexivity.
Qed.

(** The trace of [main] is that of the loop on what the stabilization
    leaves, between the start message and, when the loop was left, the
    two events of the handler; or it has no event of the loop at all. *)
Lemma main_trace (argc fd : Z) (pipe_start : bool) (t0 : Z)
    (env : list iteration) :
  (exists pre post,
     fst (main a argc fd pipe_start t0 env) = pre ++ post
     /\ (pre = [] \/ pre = [Cout_usage] \/ pre = [Perror_socket]
         \/ pre = [Cout_started])
     /\ (post = [] \/ post = [Cerr_realsense_error; Close_sock]))
  \/ exists rest post,
       fst (main a argc fd pipe_start t0 env)
       = Cout_started :: fst (stream_loop a (initial_state t0) rest) ++ post
       /\ (post = [] \/ post = [Cerr_realsense_error; Close_sock])
       /\ stabilization 30 env = Stable rest.
Proof.
  unfold main. destruct (argc =? 2); cbn [negb].
  2:{ left. exists [Cout_usage], []. cbn. tauto. }
  destruct (fd <? 0).
  { left. exists [Perror_socket], []. cbn. tauto. }
  unfold try_block. destruct pipe_start.
  2:{ left. exists [], [Cerr_realsense_error; Close_sock]. cbn. tauto. }
  destruct (stabilization 30 env) as [rest| |].
  - right. exists rest.
    destruct (stream_loop a (initial_state t0) rest) as [t [|]].
    + exists [Cerr_realsense_error; Close_sock].
      cbn. split; [reflexivity|tauto].
    + exists []. cbn. rewrite app_nil_r. split; [reflexivity|tauto].
  - left. exists [Cout_started], []. cbn. tauto.
  - left. exists [Cout_started], [Cerr_realsense_error; Close_sock].
    cbn. tauto.
Qed.

End StreamerRun.

(** The events of one iteration, projected: a tactic for the inductions
    over the loop below.  It splits the iteration into its cases and
    moves the loop of the goal one iteration on. *)
Ltac next_iteration a s i rest IH :=
  let Hb := fresh "Hb" in
  let Hw := fresh "Hw" in
  let h := fresh "h" in
  let c := fresh "c" in
  let d := fresh "d" in
  let Hh := fresh "Hh" in
  let Hsz := fresh "Hsz" in
  destruct (loop_body_cases a s i)
    as [[Hb Hw]|[[Hb Hw]|(h & c & d & Hw & Hh & Hb)]];
  [ cbn [stream_loop]; rewrite Hb; cbn [fst snd]
  | rewrite (stream_loop_cons a _ _ _ _ rest Hb); cbn [fst snd app]
  | cbv zeta in Hb; destruct Hb as [[Hsz Hb]|[Hsz Hb]];
    rewrite (stream_loop_cons a _ _ _ _ rest Hb); cbn [fst snd app] ].

Section StreamerTraces.

Variable a : abi.

Lemma warnings_app (t u : list event) :
  warnings (t ++ u) = (warnings t + warnings u)%nat.
Proof.
  induction t as [|e t IH]; [reflexivity|].
  destruct e; cbn; rewrite ?IH; reflexivity.
Qed.

Lemma perrors_app (t u : list event) :
  perrors (t ++ u) = (perrors t + perrors u)%nat.
Proof.
  induction t as [|e t IH]; [reflexivity|].
  destruct e; cbn; rewrite ?IH; reflexivity.
Qed.

(** The monitoring prints a report or nothing. *)
Lemma fps_monitoring_cases (s : loop_state) (now total : Z) :
  fst (fps_monitoring s now total) = []
  /\ fps_counter (snd (fps_monitoring s now total)) = fps_counter s + 1
  \/ fst (fps_monitoring s now total)
     = [Cout_streaming_fps (fps_counter s + 1) (total / 1024)]
     /\ fps_counter (snd (fps_monitoring s now total)) = 0.
Proof.
  unfold fps_monitoring.
  destruct (Z.quot (now - last_fps_time s) 1000000000 >=? 1);
    [right|left]; split; reflexivity.
Qed.

(** Every datagram of a run is the packet of a header that was filled
    in, within the datagram limit. *)
Lemma datagrams_stream_loop (env : list iteration) (s : loop_state)
    (p : list byte) (ret : Z) :
  In (p, ret) (datagrams (fst (stream_loop a s env))) ->
  exists count now junk color depth,
    p = create_packet a junk
          (prepare_network_frame count now color depth) color depth
    /\ total_size a (prepare_network_frame count now color depth)
       <= udp_max_payload.
Proof.
  revert s. induction env as [|i rest IH]; intros s Hin; [destruct Hin|].
  revert Hin. next_iteration a s i rest IH.
  - intros [].
  - apply IH.
  - cbn [datagrams]. apply IH.
  - cbn [datagrams]. rewrite !datagrams_app, datagrams_fps_monitoring.
    intros [Heq|Hin].
    + injection Heq as <- _. subst h. do 5 eexists. split; [reflexivity|].
      exact Hsz.
    + revert Hin. destruct (sendto_result i <? 0); cbn [datagrams app];
        apply IH.
Qed.

Lemma accounting_stream_loop (env : list iteration) (s : loop_state) :
  let t := fst (stream_loop a s env) in
  length (headers t) = (length (datagrams t) + warnings t)%nat
  /\ perrors t
     = length (filter (fun d => snd d <? 0) (datagrams t)).
Proof.
  revert s. induction env as [|i rest IH]; intro s; [split; reflexivity|].
  cbv zeta. next_iteration a s i rest IH.
  - split; reflexivity.
  - apply IH.
  - cbn [headers datagrams warnings perrors length].
    destruct (IH {| frame_count := u32 (frame_count s + 1);
                    last_fps_time := last_fps_time s;
                    fps_counter := fps_counter s |}) as [H1 H2].
    cbv zeta in H1, H2. split; [lia|exact H2].
  - set (s2 := snd (fps_monitoring _ _ _)).
    destruct (IH s2) as [H1 H2]. cbv zeta in H1, H2.
    cbn [headers datagrams warnings perrors length].
    rewrite !headers_app, !datagrams_app, !warnings_app, !perrors_app.
    rewrite headers_fps_monitoring, datagrams_fps_monitoring.
    cbn [filter snd].
    destruct (fps_monitoring_cases
                {| frame_count := u32 (frame_count s + 1);
                   last_fps_time := last_fps_time s;
                   fps_counter := fps_counter s |}
                (steady_now i) (total_size a h)) as [[-> _]|[-> _]];
      destruct (sendto_result i <? 0);
      cbn [headers datagrams warnings perrors length app Nat.add];
      rewrite ?H2; split; lia.
Qed.

Lemma reports_bounded_stream_loop (env : list iteration) (s : loop_state) :
  0 <= fps_counter s ->
  fold_right Z.add 0 (map fst (reports (fst (stream_loop a s env))))
    <= fps_counter s
       + Z.of_nat (length (datagrams (fst (stream_loop a s env))))
  /\ Forall (fun r => 1 <= fst r) (reports (fst (stream_loop a s env))).
Proof.
  revert s. induction env as [|i rest IH]; intros s Hc.
  - cbn. split; [lia|constructor].
  - next_iteration a s i rest IH.
    + cbn. split; [lia|constructor].
    + now apply IH.
    + cbn [reports datagrams].
      exact (IH {| frame_count := u32 (frame_count s + 1);
                   last_fps_time := last_fps_time s;
                   fps_counter := fps_counter s |} Hc).
    + set (s1 := {| frame_count := u32 (frame_count s + 1);
                    last_fps_time := last_fps_time s;
                    fps_counter := fps_counter s |}) in *.
      cbn [reports datagrams length].
      rewrite !reports_app, !datagrams_app, datagrams_fps_monitoring.
      assert (Hr : reports (if sendto_result i <? 0 then [Perror_sendto]
                            else []) = [])
        by (destruct (sendto_result i <? 0); reflexivity).
      assert (Hd : datagrams (if sendto_result i <? 0 then [Perror_sendto]
                              else []) = [])
        by (destruct (sendto_result i <? 0); reflexivity).
      rewrite Hr, Hd. cbn [app].
      destruct (fps_monitoring_cases s1 (steady_now i) (total_size a h))
        as [[Ht Hn]|[Ht Hn]]; rewrite Ht; cbn [reports app map fold_right fst].
      * destruct (IH (snd (fps_monitoring s1 (steady_now i)
                              (total_size a h)))) as [H1 H2].
        { rewrite Hn. cbn. lia. }
        rewrite Hn in H1. cbn [fps_counter s1] in H1.
        split; [|exact H2]. subst s1. cbn [fps_counter] in *. lia.
      * destruct (IH (snd (fps_monitoring s1 (steady_now i)
                              (total_size a h)))) as [H1 H2].
        { rewrite Hn. lia. }
        rewrite Hn in H1.
        split; [|constructor; [subst s1; cbn; lia|exact H2]].
        subst s1. cbn [fps_counter] in *. lia.
Qed.

(** With frames of the configured sizes nothing is ever sent. *)
Lemma configured_stream_loop (env : list iteration) (s : loop_state) :
  forallb configured_sizes env = true ->
  let t := fst (stream_loop a s env) in
  datagrams t = [] /\ reports t = [] /\ warnings t = length (headers t).
Proof.
  revert s. induction env as [|i rest IH]; intros s Hc; [repeat split|].
  cbn [forallb] in Hc. apply andb_true_iff in Hc. destruct Hc as [Hi Hc].
  cbv zeta. next_iteration a s i rest IH.
  - repeat split.
  - now apply IH.
  - cbn [datagrams reports warnings headers length].
    destruct (IH {| frame_count := u32 (frame_count s + 1);
                    last_fps_time := last_fps_time s;
                    fps_counter := fps_counter s |} Hc) as (H1 & H2 & H3).
    cbv zeta in H1, H2, H3. repeat split; try assumption. now rewrite H3.
  - exfalso. unfold configured_sizes in Hi. rewrite Hw in Hi.
    apply andb_true_iff in Hi. destruct Hi as [Hcs Hds].
    apply Z.eqb_eq in Hcs. apply Z.eqb_eq in Hds.
    subst h. unfold total_size, udp_max_payload in Hsz.
    cbn [rgb_size depth_size prepare_network_frame] in Hsz.
    rewrite Hcs, Hds in Hsz. unfold u32 in Hsz.
    change (424 * 240 * 3 mod 2 ^ 32) with 305280 in Hsz.
    change (424 * 240 * 2 mod 2 ^ 32) with 203520 in Hsz. lia.
Qed.

End StreamerTraces.

Section StreamerMain.

Variable a : abi.

(** What [main] sends, prepares, reports and warns of is what its loop
    does on the framesets that the stabilization leaves. *)
Lemma main_loop_events (argc fd : Z) (pipe_start : bool) (t0 : Z)
    (env : list iteration) :
  exists rest,
    let t := fst (main a argc fd pipe_start t0 env) in
    let u := fst (stream_loop a (initial_state t0) rest) in
    datagrams t = datagrams u /\ headers t = headers u
    /\ reports t = reports u /\ warnings t = warnings u
    /\ perrors t = perrors u /\ exists pre, env = pre ++ rest.
Proof.
  destruct (main_trace a argc fd pipe_start t0 env)
    as [(pre & post & Hm & Hpre & Hpost)
       |(rest & post & Hm & Hpost & Hstab)];
    rewrite Hm.
  - exists []. cbn [stream_loop fst].
    assert (exists pre, env = pre ++ [])
      by (exists env; now rewrite app_nil_r).
    destruct Hpre as [-> | [-> | [-> | ->]]]; destruct Hpost as [-> | ->];
      repeat split; assumption.
  - exists rest. cbv zeta.
    pose proof (stabilization_suffix 30 env rest Hstab).
    cbn [datagrams headers reports warnings perrors].
    rewrite datagrams_app, headers_app, reports_app, warnings_app,
      perrors_app.
    destruct Hpost as [-> | ->]; cbn; rewrite ?app_nil_r, ?Nat.add_0_r;
      repeat split; assumption.
Qed.

Lemma read_sizes (junk : nat -> byte) (h : NetworkFrame)
    (rest : list byte) :
  read_at (nth 4 (offsets a 0 NetworkFrame_members) 0%nat) U32
    (NetworkFrame_image a junk h ++ rest)
  = le_value (le_bytes 4 (rgb_size h))
  /\ read_at (nth 5 (offsets a 0 NetworkFrame_members) 0%nat) U32
       (NetworkFrame_image a junk h ++ rest)
     = le_value (le_bytes 4 (depth_size h)).
Proof. destruct a; split; reflexivity. Qed.

Lemma numbered_frame_id (l : list (Z * video_frame * video_frame))
    (count : Z) (k : nat) (h : NetworkFrame) :
  0 <= count < 2 ^ 32 ->
  nth_error (numbered count l) k = Some h ->
  frame_id h = (count + Z.of_nat k) mod 2 ^ 32.
Proof.
  revert count k. induction l as [|[[now c] d] r IH]; intros count k Hc H.
  - destruct k; discriminate.
  - destruct k as [|k].
    + cbn in H. injection H as <-. cbn [frame_id prepare_network_frame].
      rewrite Z.add_0_r, Z.mod_small; lia.
    + cbn [numbered nth_error] in H.
      rewrite (IH _ _ (u32_range (count + 1)) H). unfold u32.
      rewrite Zplus_mod_idemp_l. f_equal. lia.
Qed.

End StreamerMain.

(** X1.  Once its socket is open and the pipeline started, the streamer
    has one way out only: it runs for as long as [wait_for_frames]
    delivers, and at the first [rs2::error] it prints the error, closes
    the socket and returns 0.  Neither a failed [sendto] nor an oversize
    or incomplete frameset ends it. *)
Theorem X1_streamer_returns_only_on_device_error (a : abi) (fd t0 : Z)
    (env : list iteration) :
  0 <= fd ->
  snd (main a 2 fd true t0 env)
  = (if forallb delivers env then Running else Exited 0)
  /\ (forallb delivers env = false ->
      exists t,
        fst (main a 2 fd true t0 env)
        = t ++ [Cerr_realsense_error; Close_sock]).
Proof.
  intro Hfd. assert (Hfd' : (fd <? 0) = false) by lia.
  unfold main. cbn [Z.eqb Pos.eqb negb]. rewrite Hfd'.
  pose proof (try_block_thrown a t0 env) as Ht.
  destruct (try_block a true t0 env) as [t thrown]. cbn [snd] in Ht.
  subst thrown. unfold after_try.
  destruct (forallb delivers env); cbn [negb snd fst].
  - split; [reflexivity|discriminate].
  - split; [reflexivity|]. intros _. exists t. reflexivity.
Qed.

Lemma X1_streamer_returns_only_on_device_error_witness :
  snd (main Align8 2 3 true 0
         (Examples.warm_up
            ++ [Examples.answer (Some Examples.tiny_frameset) 1 (-1) 0;
                Examples.answer (Some Examples.configured_frameset) 2 0 0;
                Examples.answer None 3 0 0;
                Examples.answer (Some Examples.tiny_frameset) 4 0 0]))
  = Exited 0.
Proof.
  refine (proj1 (X1_streamer_returns_only_on_device_error Align8 3 0 _ _)).
  lia.
Defined.

(** X2.  Whatever the camera, the clocks and the network answer, every
    datagram that [main] hands to [sendto] is a whole packet: it has at
    least [sizeof(NetworkFrame)] and at most 65,507 bytes, and its length
    is [sizeof(NetworkFrame)] plus the [rgb_size] and the [depth_size]
    that stand in its own header. *)
Theorem X2_datagrams_whole_and_bounded (a : abi) (argc fd : Z)
    (pipe_start : bool) (t0 : Z) (env : list iteration) :
  Forall (fun d =>
            let p := fst d in
            Z.of_nat (sizeof_NetworkFrame a) <= Z.of_nat (length p)
              <= udp_max_payload
            /\ Z.of_nat (length p)
               = Z.of_nat (sizeof_NetworkFrame a)
                 + read_at (nth 4 (offsets a 0 NetworkFrame_members) 0%nat)
                     U32 p
                 + read_at (nth 5 (offsets a 0 NetworkFrame_members) 0%nat)
                     U32 p)
    (datagrams (fst (main a argc fd pipe_start t0 env))).
Proof.
  destruct (main_loop_events a argc fd pipe_start t0 env)
    as (rest & Hd & _). cbv zeta in Hd. rewrite Hd.
  apply Forall_forall. intros [p ret] Hin.
  destruct (datagrams_stream_loop a _ _ _ _ Hin)
    as (count & now & junk & c & d & Hp & Hsz).
  subst p. cbn [fst].
  pose proof (length_create_packet a junk count now c d) as Hlen.
  set (h := prepare_network_frame count now c d) in *.
  unfold create_packet in *.
  destruct (read_sizes a junk h
              (firstn (Z.to_nat (rgb_size h)) (get_data c)
                 ++ firstn (Z.to_nat (depth_size h)) (get_data d)))
    as [-> ->].
  assert (Hr : 0 <= rgb_size h < 2 ^ 32) by apply u32_range.
  assert (Hp : 0 <= depth_size h < 2 ^ 32) by apply u32_range.
  rewrite !le_value_le_bytes_small by assumption.
  rewrite Hlen. unfold total_size in *. lia.
Qed.

Lemma stabilization_skipn (n : nat) (env rest : list iteration) :
  stabilization n env = Stable rest -> rest = skipn n env.
Proof.
  revert env. induction n as [|n IH]; intros env H.
  - now injection H as <-.
  - destruct env as [|i env]; [discriminate|]. cbn [stabilization] in H.
    destruct (wait_for_frames i); [|discriminate].
    cbn [skipn]. now apply IH.
Qed.

(** The headers of [main] are those of the framesets behind the first
    thirty that have both frames, if it prepares any. *)
Lemma headers_main (a : abi) (argc fd : Z) (pipe_start : bool) (t0 : Z)
    (env : list iteration) :
  headers (fst (main a argc fd pipe_start t0 env)) = []
  \/ headers (fst (main a argc fd pipe_start t0 env))
     = numbered 0 (acquisitions (skipn 30 env)).
Proof.
  destruct (main_trace a argc fd pipe_start t0 env)
    as [(pre & post & Hm & Hpre & Hpost)
       |(rest & post & Hm & Hpost & Hstab)];
    rewrite Hm.
  - left. destruct Hpre as [-> | [-> | [-> | ->]]];
      destruct Hpost as [-> | ->]; reflexivity.
  - right. apply stabilization_skipn in Hstab. subst rest.
    cbn [headers]. rewrite headers_app, headers_stream_loop.
    destruct Hpost as [-> | ->]; cbn [headers]; now rewrite app_nil_r.
Qed.

Lemma numbered_nth (l : list (Z * video_frame * video_frame))
    (count : Z) (k : nat) (h : NetworkFrame) :
  0 <= count < 2 ^ 32 ->
  nth_error (numbered count l) k = Some h ->
  exists now color depth,
    nth_error l k = Some (now, color, depth)
    /\ h = prepare_network_frame ((count + Z.of_nat k) mod 2 ^ 32)
             now color depth.
Proof.
  revert count k. induction l as [|[[now c] d] r IH]; intros count k Hc H.
  - destruct k; discriminate.
  - destruct k as [|k].
    + cbn in H. injection H as <-. exists now, c, d.
      split; [reflexivity|]. rewrite Z.add_0_r, Z.mod_small by lia.
      reflexivity.
    + cbn [numbered nth_error] in H.
      destruct (IH _ _ (u32_range (count + 1)) H)
        as (now' & c' & d' & Hn & ->).
      exists now', c', d'. split; [exact Hn|]. unfold u32.
      rewrite Zplus_mod_idemp_l. do 2 f_equal. lia.
Qed.

(** X3.  The framesets of the first thirty calls of [wait_for_frames]
    get no header.  Of the framesets behind them, the [k]-th that has
    both frames, [k] counted from 0, is the one whose header is the
    [k]-th that [main] prepares, and it gets the frame id [k mod 2^32],
    whether it is sent or dropped as too large: a dropped frame uses up
    its id, and the receiver sees a gap. *)
Theorem X3_frame_id_is_position (a : abi) (argc fd : Z)
    (pipe_start : bool) (t0 : Z) (env : list iteration) (k : nat)
    (h : NetworkFrame) :
  nth_error (headers (fst (main a argc fd pipe_start t0 env))) k = Some h ->
  frame_id h = Z.of_nat k mod 2 ^ 32
  /\ exists now color depth,
       nth_error (acquisitions (skipn 30 env)) k = Some (now, color, depth)
       /\ h = prepare_network_frame (Z.of_nat k mod 2 ^ 32) now color depth.
Proof.
  destruct (headers_main a argc fd pipe_start t0 env) as [-> | ->].
  - destruct k; discriminate.
  - intro H.
    destruct (numbered_nth _ 0 k h ltac:(lia) H)
      as (now & c & d & Hn & Hh).
    split; [subst h; reflexivity|]. exists now, c, d. split; assumption.
Qed.

Lemma X3_frame_id_is_position_witness :
  let env := Examples.warm_up
               ++ [Examples.answer (Some Examples.tiny_frameset) 1 10 0;
                   Examples.answer (Some Examples.configured_frameset) 2 0 0;
                   Examples.answer (Some Examples.tiny_frameset) 3 10 0] in
  let h := prepare_network_frame 2 3 (Examples.flat_frame 2 1 3 xaa)
             (Examples.flat_frame 2 1 2 x10) in
  nth_error (headers (fst (main Align8 2 3 true 0 env))) 2 = Some h
  /\ length (datagrams (fst (main Align8 2 3 true 0 env))) = 2%nat
  /\ frame_id h = 2.
Proof.
  intros env h.
  assert (H : nth_error (headers (fst (main Align8 2 3 true 0 env))) 2
              = Some h) by (vm_compute; reflexivity).
  split; [exact H|]. split; [vm_compute; reflexivity|].
  exact (proj1 (X3_frame_id_is_position Align8 2 3 true 0 env 2 h H)).
Defined.

(** X4.  Every frameset that has both frames is answered by exactly one
    of two things, one call of [sendto] or one warning that the frame is
    too large; and [perror] is called once for every call of [sendto]
    that returned a negative value, and for nothing else. *)
Theorem X4_one_send_or_one_warning (a : abi) (argc fd : Z)
    (pipe_start : bool) (t0 : Z) (env : list iteration) :
  let t := fst (main a argc fd pipe_start t0 env) in
  length (headers t) = (length (datagrams t) + warnings t)%nat
  /\ perrors t = length (filter (fun d => snd d <? 0) (datagrams t)).
Proof.
  destruct (main_loop_events a argc fd pipe_start t0 env)
    as (rest & Hd & Hh & _ & Hw & Hp & _). cbv zeta in *.
  rewrite Hd, Hh, Hw, Hp.
  exact (accounting_stream_loop a rest (initial_state t0)).
Qed.

(** X5.  With frames of the sizes that [main] itself configures, 424 by
    240 pixels of three bytes of colour and of two bytes of depth, every
    packet has more than 65,507 bytes: the streamer hands no datagram to
    [sendto] and prints no FPS line, ever; each frameset gets the warning
    only. *)
Theorem X5_configured_streams_are_never_sent (a : abi) (argc fd : Z)
    (pipe_start : bool) (t0 : Z) (env : list iteration) :
  forallb configured_sizes env = true ->
  let t := fst (main a argc fd pipe_start t0 env) in
  datagrams t = [] /\ reports t = [] /\ warnings t = length (headers t).
Proof.
  intro Hc.
  destruct (main_loop_events a argc fd pipe_start t0 env)
    as (rest & Hd & Hh & Hr & Hw & _ & pre & Henv). cbv zeta in *.
  rewrite Hd, Hh, Hr, Hw. subst env. rewrite forallb_app in Hc.
  apply andb_true_iff in Hc. destruct Hc as [_ Hc].
  exact (configured_stream_loop a rest (initial_state t0) Hc).
Qed.

Lemma X5_configured_streams_are_never_sent_witness :
  let env := Examples.warm_up
               ++ repeat (Examples.answer (Some Examples.configured_frameset)
                            5 0 2000000000) 3 in
  datagrams (fst (main Align8 2 3 true 0 env)) = []
  /\ reports (fst (main Align8 2 3 true 0 env)) = []
  /\ warnings (fst (main Align8 2 3 true 0 env)) = 3%nat.
Proof.
  intro env.
  destruct (X5_configured_streams_are_never_sent Align8 2 3 true 0 env)
    as (H1 & H2 & H3).
  - vm_compute. reflexivity.
  - split; [exact H1|]. split; [exact H2|]. rewrite H3.
    vm_compute. reflexivity.
Defined.

(** X6.  The FPS lines never count more than was sent: the counts of
    all reports of a run add up to at most the number of calls of
    [sendto], and no report is of less than one frame. *)
Theorem X6_reports_count_sends (a : abi) (argc fd : Z)
    (pipe_start : bool) (t0 : Z) (env : list iteration) :
  let t := fst (main a argc fd pipe_start t0 env) in
  fold_right Z.add 0 (map fst (reports t))
    <= Z.of_nat (length (datagrams t))
  /\ Forall (fun r => 1 <= fst r) (reports t).
Proof.
  destruct (main_loop_events a argc fd pipe_start t0 env)
    as (rest & Hd & _ & Hr & _). cbv zeta in *. rewrite Hd, Hr.
  exact (reports_bounded_stream_loop a rest (initial_state t0)
           ltac:(cbn; lia)).
Qed.

(** X7.  [compress_rgb] compresses nothing: it returns the bytes of the
    frame as they are, [get_data_size()] of them. *)
Theorem X7_compress_rgb_is_a_copy (frame : video_frame) :
  compress_rgb frame = get_data frame
  /\ Z.of_nat (length (compress_rgb frame)) = get_data_size frame.
Proof.
  unfold compress_rgb, get_data_size. rewrite Nat2Z.id, firstn_all.
  split; reflexivity.
Qed.

(** * Further properties of the saving program *)

Section CaptureRun.

Lemma no_error_in_save_frameset (count timestamp elapsed : Z)
    (frames : list Saver.frame) :
  ~ In Saver.Cerr_error (Saver.save_frameset count timestamp elapsed frames).
Proof.
  unfold Saver.save_frameset. intro H. apply in_app_or in H.
  destruct H as [H|H].
  - apply in_flat_map in H. destruct H as (f & _ & H).
    unfold Saver.save_frame in H.
    destruct (Saver.is_video_frame f); [|destruct H].
    destruct (Saver.stream_type f); cbn in H; intuition discriminate.
  - destruct (Z.rem count 30 =? 0); cbn in H; intuition discriminate.
Qed.

Lemma no_error_in_stabilization (n : nat) (done : Z)
    (env : list Saver.iteration) :
  ~ In Saver.Cerr_error (fst (Saver.stabilization n done env)).
Proof.
  revert done env. induction n as [|n IH]; intros done env; [intros []|].
  destruct env as [|i env]; [intros []|].
  cbn [Saver.stabilization]. destruct (Saver.wait_for_frames i);
    [|intros []].
  specialize (IH (done + 1) env).
  destruct (Saver.stabilization n (done + 1) env). cbn [fst] in *.
  intros [H|H]; [discriminate|auto].
Qed.

Lemma saver_stabilization_skipn (n : nat) (done : Z)
    (env rest : list Saver.iteration) :
  snd (Saver.stabilization n done env) = Saver.Stable rest ->
  rest = skipn n env.
Proof.
  revert done env. induction n as [|n IH]; intros done env H.
  - cbn in H. now injection H as <-.
  - destruct env as [|i env]; [discriminate|]. cbn [Saver.stabilization] in H.
    destruct (Saver.wait_for_frames i); [|discriminate].
    specialize (IH (done + 1) env).
    destruct (Saver.stabilization n (done + 1) env). cbn [snd] in *.
    cbn [skipn]. now apply IH.
Qed.

Lemma saver_stabilization_delivers (n : nat) (done : Z)
    (env : list Saver.iteration) :
  forallb Saver.delivers env = true ->
  snd (Saver.stabilization n done env) <> Saver.Stabilize_thrown.
Proof.
  revert done env. induction n as [|n IH]; intros done env H; [discriminate|].
  destruct env as [|i env]; [discriminate|].
  cbn [forallb] in H. apply andb_true_iff in H. destruct H as [Hi H].
  unfold Saver.delivers in Hi. cbn [Saver.stabilization].
  destruct (Saver.wait_for_frames i); [|discriminate].
  specialize (IH (done + 1) env H).
  destruct (Saver.stabilization n (done + 1) env). exact IH.
Qed.

(** The files of the capture loop are those of the framesets it gets,
    numbered from the frame counter on. *)
Lemma files_capture_loop (start : Z) (env : list Saver.iteration)
    (count : Z) :
  Saver.files (fst (Saver.capture_loop start count env))
  = Saver.files_numbered count (Saver.captured start env).
Proof.
  revert count. induction env as [|i rest IH]; intro count; [reflexivity|].
  cbn [Saver.capture_loop Saver.captured].
  destruct (Z.quot (Saver.high_resolution_now i - start) 1000000 >=? 10000);
    [reflexivity|].
  destruct (Saver.wait_for_frames i) as [frames|]; [|reflexivity].
  specialize (IH (count + 1)).
  destruct (Saver.capture_loop start (count + 1) rest) as [t o].
  cbn [fst] in *. cbn [Saver.files_numbered].
  now rewrite saver_files_app, files_save_frameset, IH.
Qed.

(** How the capture loop ends: after ten seconds with the total, or at
    an error of the camera with the diagnostic. *)
Lemma capture_loop_exit (start : Z) (env : list Saver.iteration)
    (count code : Z) :
  snd (Saver.capture_loop start count env) = Saver.Exited code ->
  (code = Saver.EXIT_SUCCESS
   /\ ~ In Saver.Cerr_error (fst (Saver.capture_loop start count env))
   /\ exists t,
        fst (Saver.capture_loop start count env)
        = t ++ [Saver.Cout_capture_complete
                  (count + Z.of_nat (length (Saver.captured start env)))])
  \/ (code = Saver.EXIT_FAILURE
      /\ exists t,
           fst (Saver.capture_loop start count env)
           = t ++ [Saver.Cerr_error]).
Proof.
  revert count. induction env as [|i rest IH]; intros count H;
    [discriminate|].
  cbn [Saver.capture_loop Saver.captured] in *.
  destruct (Z.quot (Saver.high_resolution_now i - start) 1000000 >=? 10000).
  - cbn in H. injection H as <-. left. split; [reflexivity|].
    cbn [length fst]. split; [cbn; intuition discriminate|].
    exists []. cbn. now rewrite Z.add_0_r.
  - destruct (Saver.wait_for_frames i) as [frames|].
    + specialize (IH (count + 1)).
      destruct (Saver.capture_loop start (count + 1) rest) as [t o].
      cbn [fst snd] in *.
      destruct (IH H) as [(Hc & Hn & t' & Ht)|(Hc & t' & Ht)].
      * left. split; [exact Hc|]. split.
        -- intro Hin. apply in_app_or in Hin. destruct Hin as [Hin|Hin];
             [exact (no_error_in_save_frameset _ _ _ _ Hin)|auto].
        -- exists (Saver.save_frameset (count + 1) (Saver.system_now_ms i)
                     (Z.quot (Saver.high_resolution_now i - start) 1000000)
                     frames ++ t').
           rewrite Ht, <- app_assoc. cbn [length].
           rewrite Nat2Z.inj_succ.
           assert (E : forall x, count + Z.succ x = count + 1 + x)
             by (intro; lia).
           rewrite E. reflexivity.
      * right. split; [exact Hc|].
        exists (Saver.save_frameset (count + 1) (Saver.system_now_ms i)
                  (Z.quot (Saver.high_resolution_now i - start) 1000000)
                  frames ++ t').
        now rewrite Ht, <- app_assoc.
    + cbn in H. injection H as <-. right. split; [reflexivity|].
      exists []. reflexivity.
Qed.

Lemma capture_loop_delivers (start : Z) (env : list Saver.iteration)
    (count : Z) :
  forallb Saver.delivers env = true ->
  snd (Saver.capture_loop start count env)
    <> Saver.Exited Saver.EXIT_FAILURE.
Proof.
  revert count. induction env as [|i rest IH]; intros count H;
    [discriminate|].
  cbn [forallb] in H. apply andb_true_iff in H. destruct H as [Hi H].
  unfold Saver.delivers in Hi. cbn [Saver.capture_loop].
  destruct (Z.quot (Saver.high_resolution_now i - start) 1000000 >=? 10000);
    [discriminate|].
  destruct (Saver.wait_for_frames i); [|discriminate].
  specialize (IH (count + 1) H).
  destruct (Saver.capture_loop start (count + 1) rest). exact IH.
Qed.

End CaptureRun.

Section CaptureMain.

Lemma capture_loop_error (start : Z) (env : list Saver.iteration)
    (count : Z) :
  In Saver.Cerr_error (fst (Saver.capture_loop start count env)) ->
  snd (Saver.capture_loop start count env)
  = Saver.Exited Saver.EXIT_FAILURE.
Proof.
  revert count. induction env as [|i rest IH]; intros count H;
    [destruct H|].
  cbn [Saver.capture_loop] in *.
  destruct (Z.quot (Saver.high_resolution_now i - start) 1000000 >=? 10000).
  - cbn in H. intuition discriminate.
  - destruct (Saver.wait_for_frames i) as [frames|]; [|reflexivity].
    specialize (IH (count + 1)).
    destruct (Saver.capture_loop start (count + 1) rest) as [t o].
    cbn [fst snd] in *. apply in_app_or in H. destruct H as [H|H].
    + destruct (no_error_in_save_frameset _ _ _ _ H).
    + now apply IH.
Qed.

Lemma no_error_in_directories : ~ In Saver.Cerr_error Saver.directories.
Proof. cbn. intuition discriminate. Qed.

Lemma files_directories : Saver.files Saver.directories = [].
Proof. reflexivity. Qed.

End CaptureMain.

(** X8.  When the saving program ends after its ten seconds, the files
    it has written are those of the framesets it got after the thirty
    of the stabilization and before the time was up, numbered 1, 2, ...
    in this order, and the total it prints as "Total frames captured" is
    the number of these framesets. *)
Theorem X8_total_is_number_of_saved_framesets (pipe_start : bool)
    (start : Z) (env : list Saver.iteration) :
  snd (Saver.main pipe_start start env) = Saver.Exited Saver.EXIT_SUCCESS ->
  let saved := Saver.captured start (skipn 30 env) in
  Saver.files (fst (Saver.main pipe_start start env))
  = Saver.files_numbered 0 saved
  /\ exists t,
       fst (Saver.main pipe_start start env)
       = t ++ [Saver.Cout_capture_complete (Z.of_nat (length saved))].
Proof.
  cbv zeta. unfold Saver.main. destruct pipe_start; [|discriminate].
  pose proof (saver_files_stabilization 30 0 env) as Hf.
  pose proof (saver_stabilization_skipn 30 0 env) as Hs.
  destruct (Saver.stabilization 30 0 env) as [t [rest| |]];
    try discriminate.
  cbn [fst snd] in *. specialize (Hs rest eq_refl). subst rest.
  pose proof (files_capture_loop start (skipn 30 env) 0) as Hc.
  pose proof (capture_loop_exit start (skipn 30 env) 0 Saver.EXIT_SUCCESS)
    as He.
  destruct (Saver.capture_loop start 0 (skipn 30 env)) as [t' o].
  cbn [fst snd] in *. intros Ho.
  split.
  - rewrite !saver_files_app, files_directories, Hf, Hc. reflexivity.
  - destruct (He Ho) as [(_ & _ & u & Hu)|(Hbad & _)]; [|discriminate].
    exists (Saver.directories ++ t ++ u). rewrite Hu, <- !app_assoc.
    reflexivity.
Qed.

Lemma X8_total_is_number_of_saved_framesets_witness :
  let env := Examples.saver_warm_up
               ++ [Examples.saver_answer 1000000 1700000000123
                     (Some Examples.color_and_depth);
                   Examples.saver_answer 34000000 1700000000156
                     (Some Examples.color_and_depth);
                   Examples.saver_answer 10000000000 1700000010000
                     (Some Examples.color_and_depth)] in
  length (Saver.files (fst (Saver.main true 0 env))) = 10%nat
  /\ exists t,
       fst (Saver.main true 0 env) = t ++ [Saver.Cout_capture_complete 2].
Proof.
  intro env.
  destruct (X8_total_is_number_of_saved_framesets true 0 env)
    as [H1 H2].
  - vm_compute. reflexivity.
  - split; [rewrite H1; vm_compute; reflexivity|exact H2].
Defined.

(** X9.  The saving program returns [EXIT_FAILURE] exactly when it has
    printed an error, which it does when [pipe.start] or a
    [wait_for_frames] throws; it returns no other status than
    [EXIT_SUCCESS] and [EXIT_FAILURE], and with a camera that delivers
    every frameset it does not fail. *)
Theorem X9_saver_exit_status (pipe_start : bool) (start : Z)
    (env : list Saver.iteration) :
  (snd (Saver.main pipe_start start env) = Saver.Exited Saver.EXIT_FAILURE
   <-> In Saver.Cerr_error (fst (Saver.main pipe_start start env)))
  /\ (forall code,
        snd (Saver.main pipe_start start env) = Saver.Exited code ->
        code = Saver.EXIT_SUCCESS \/ code = Saver.EXIT_FAILURE)
  /\ (pipe_start = true -> forallb Saver.delivers env = true ->
      snd (Saver.main pipe_start start env)
        <> Saver.Exited Saver.EXIT_FAILURE)
  /\ (pipe_start = false ->
      snd (Saver.main pipe_start start env)
        = Saver.Exited Saver.EXIT_FAILURE).
Proof.
  unfold Saver.main. destruct pipe_start.
  2:{ cbn [fst snd]. repeat split; try discriminate; auto.
      - intros _. apply in_or_app. right. left. reflexivity.
      - intros code H. injection H as <-. right. reflexivity. }
  pose proof (no_error_in_stabilization 30 0 env) as Hn.
  pose proof (saver_stabilization_skipn 30 0 env) as Hs.
  pose proof (saver_stabilization_delivers 30 0 env) as Hd.
  destruct (Saver.stabilization 30 0 env) as [t [rest| |]];
    cbn [fst snd] in *.
  - specialize (Hs rest eq_refl). subst rest.
    pose proof (capture_loop_exit start (skipn 30 env) 0) as He.
    pose proof (capture_loop_error start (skipn 30 env) 0) as Hr.
    pose proof (capture_loop_delivers start (skipn 30 env) 0) as Hc.
    destruct (Saver.capture_loop start 0 (skipn 30 env)) as [t' o].
    cbn [fst snd] in *.
    split; [split|split; [|split]].
    + intro Ho. destruct (He _ Ho) as [(Hbad & _)|(_ & u & ->)];
        [discriminate|].
      apply in_or_app. right. apply in_or_app. right.
      apply in_or_app. right. left. reflexivity.
    + intro Hin. apply Hr.
      apply in_app_or in Hin. destruct Hin as [Hin|Hin];
        [destruct (no_error_in_directories Hin)|].
      apply in_app_or in Hin. destruct Hin as [Hin|Hin];
        [destruct (Hn Hin)|exact Hin].
    + intros code Ho. destruct (He _ Ho) as [(-> & _)|(-> & _)]; auto.
    + intros _ Hall. apply Hc.
      rewrite <- (firstn_skipn 30 env), forallb_app in Hall.
      apply andb_true_iff in Hall. tauto.
    + discriminate.
  - split; [split|split; [|split]]; try discriminate.
    intro Hin. exfalso.
    apply in_app_or in Hin. destruct Hin as [Hin|Hin];
      [destruct (no_error_in_directories Hin)|destruct (Hn Hin)].
  - split; [split|split; [|split]]; try discriminate.
    + intros _. apply in_or_app. right. apply in_or_app. right.
      left. reflexivity.
    + reflexivity.
    + intros code H. injection H as <-. right. reflexivity.
    + intros _ Hall. destruct (Hd Hall eq_refl).
Qed.

Lemma X9_saver_exit_status_witness :
  let env := Examples.saver_warm_up
               ++ [Examples.saver_answer 1000000 1700000000123
                     (Some Examples.color_and_depth);
                   Examples.saver_answer 34000000 1700000000156 None] in
  In Saver.Cerr_error (fst (Saver.main true 0 env))
  /\ snd (Saver.main true 0 (firstn 31 env))
       <> Saver.Exited Saver.EXIT_FAILURE
  /\ snd (Saver.main false 0 env) = Saver.Exited Saver.EXIT_FAILURE.
Proof.
  intro env. split; [|split].
  - apply (proj1 (proj1 (X9_saver_exit_status true 0 env))).
    vm_compute. reflexivity.
  - apply (proj1 (proj2 (proj2 (X9_saver_exit_status true 0 (firstn 31 env))))
             eq_refl).
    vm_compute. reflexivity.
  - apply (proj2 (proj2 (proj2 (X9_saver_exit_status false 0 env))) eq_refl).
Defined.

(** X10.  A frameset gives two files for every colour video frame in it
    (image and metadata) and three for every depth video frame (image,
    colorized image and metadata); frames of other streams and frames
    that are no video frames give none. *)
Theorem X10_files_per_frameset (count timestamp elapsed : Z)
    (frames : list Saver.frame) :
  length (Saver.files (Saver.save_frameset count timestamp elapsed frames))
  = (2 * Saver.video_frames_of Saver.RS2_STREAM_COLOR frames
     + 3 * Saver.video_frames_of Saver.RS2_STREAM_DEPTH frames)%nat.
Proof.
  rewrite files_save_frameset. unfold Saver.video_frames_of.
  induction frames as [|f frames IH]; [reflexivity|].
  cbn [flat_map filter]. rewrite length_app, IH.
  unfold Saver.save_frame.
  destruct (Saver.is_video_frame f); destruct (Saver.stream_type f);
    cbn [andb Saver.files length]; lia.
Qed.

(** ** Texts: digits, separators, file names *)

Section Texts.

Import String Ascii.

Lemma append_cancel_l (s u v : string) :
  (s ++ u = s ++ v)%string -> u = v.
Proof.
  induction s as [|c s IH]; cbn; intro H; [exact H|].
  injection H as H. exact (IH H).
Qed.

Lemma append_assoc (s u v : string) :
  ((s ++ u) ++ v = s ++ (u ++ v))%string.
Proof. induction s as [|c s IH]; cbn; [reflexivity|now rewrite IH]. Qed.

Lemma free_of_append (c : ascii) (s u : string) :
  Saver.free_of c (s ++ u) = Saver.free_of c s && Saver.free_of c u.
Proof.
  induction s as [|d s IH]; cbn; [reflexivity|].
  rewrite IH. now rewrite andb_assoc.
Qed.

(** A text is cut at the first occurrence of a separator in one way
    only. *)
Lemma first_separator (c : ascii) (s1 s2 r1 r2 : string) :
  Saver.free_of c s1 = true -> Saver.free_of c s2 = true ->
  (s1 ++ String c r1 = s2 ++ String c r2)%string ->
  s1 = s2 /\ r1 = r2.
Proof.
  revert s2. induction s1 as [|d1 s1 IH]; intros [|d2 s2] H1 H2 H; cbn in *.
  - injection H as H. split; [reflexivity|exact H].
  - injection H as Hc _. subst d2.
    rewrite Ascii.eqb_refl in H2. discriminate.
  - injection H as Hc _. subst d1.
    rewrite Ascii.eqb_refl in H1. discriminate.
  - injection H as Hd H. subst d2.
    apply andb_true_iff in H1. apply andb_true_iff in H2.
    destruct (IH s2 (proj2 H1) (proj2 H2) H) as [-> ->].
    split; reflexivity.
Qed.

(** The digit characters. *)
Lemma digit_cases (d : Z) :
  d < 10 ->
  exists k, (k <= 9)%nat /\ Saver.digit d = ascii_of_nat (48 + k)
            /\ (0 <= d -> Z.of_nat k = d).
Proof.
  intro H. exists (Z.to_nat d). unfold Saver.digit.
  split; [lia|]. split; [reflexivity|lia].
Qed.

Lemma nat_of_digit (k : nat) :
  (k <= 9)%nat -> nat_of_ascii (ascii_of_nat (48 + k)) = (48 + k)%nat.
Proof. intro H. apply nat_ascii_embedding. lia. Qed.

Lemma no_digit_cases (c : ascii) :
  forallb (fun k => negb (Ascii.eqb c (ascii_of_nat (48 + k)))) (seq 0 10)
    = true ->
  Saver.no_digit c.
Proof.
  intros H k Hk. rewrite forallb_forall in H.
  specialize (H k). rewrite in_seq in H.
  specialize (H ltac:(lia)). now apply negb_true_iff in H.
Qed.

Lemma underscore_no_digit : Saver.no_digit "_".
Proof. apply no_digit_cases. reflexivity. Qed.

Lemma newline_no_digit : Saver.no_digit (ascii_of_nat 10).
Proof. apply no_digit_cases. reflexivity. Qed.

Lemma minus_no_digit : Saver.no_digit "-".
Proof. apply no_digit_cases. reflexivity. Qed.

Lemma free_of_digits (c : ascii) (fuel : nat) (n : Z) :
  Saver.no_digit c -> Saver.free_of c (Saver.digits fuel n) = true.
Proof.
  intro Hc. revert n. induction fuel as [|f IH]; intro n; [reflexivity|].
  cbn [Saver.digits]. destruct (n <? 10) eqn:E.
  - destruct (digit_cases n ltac:(lia)) as (k & Hk & -> & _).
    cbn [Saver.free_of]. now rewrite (Hc k Hk).
  - rewrite free_of_append, IH.
    destruct (digit_cases (n mod 10)) as (k & Hk & -> & _).
    { apply Z.mod_pos_bound. lia. }
    cbn [Saver.free_of]. now rewrite (Hc k Hk).
Qed.

Lemma free_of_show_int (c : ascii) (n : Z) :
  Saver.no_digit c -> Ascii.eqb c "-" = false ->
  Saver.free_of c (Saver.show_int n) = true.
Proof.
  intros Hc Hm. unfold Saver.show_int. destruct (n <? 0).
  - rewrite free_of_append, free_of_digits by assumption.
    cbn [Saver.free_of]. now rewrite Hm.
  - now apply free_of_digits.
Qed.

Lemma free_of_fill (c d : ascii) (n : nat) :
  Ascii.eqb c d = false -> Saver.free_of c (Saver.fill d n) = true.
Proof.
  intro H. induction n as [|n IH]; cbn; [reflexivity|].
  now rewrite H, IH.
Qed.

Lemma free_of_frame_number (n : Z) :
  Saver.free_of "_" (Saver.setfill_setw "0" 6 (Saver.show_int n)) = true.
Proof.
  unfold Saver.setfill_setw. rewrite free_of_append.
  rewrite free_of_fill by reflexivity.
  now rewrite (free_of_show_int "_" n underscore_no_digit).
Qed.

(** Reading digits back. *)
Lemma decimal_append (s u : string) (acc : Z) :
  Saver.decimal acc (s ++ u) = Saver.decimal (Saver.decimal acc s) u.
Proof.
  revert acc. induction s as [|c s IH]; intro acc; cbn; [reflexivity|].
  apply IH.
Qed.

Lemma decimal_digit (d acc : Z) :
  0 <= d < 10 ->
  Saver.decimal acc (String (Saver.digit d) "") = 10 * acc + d.
Proof.
  intro H. destruct (digit_cases d ltac:(lia)) as (k & Hk & -> & Hd).
  cbn [Saver.decimal]. rewrite (nat_of_digit k Hk).
  specialize (Hd ltac:(lia)). lia.
Qed.

Lemma decimal_digits (fuel : nat) (n : Z) :
  0 <= n < 10 ^ Z.of_nat fuel ->
  Saver.decimal 0 (Saver.digits fuel n) = n.
Proof.
  revert n. induction fuel as [|f IH]; intros n H.
  - cbn in H. cbn. lia.
  - cbn [Saver.digits]. destruct (n <? 10) eqn:E.
    + rewrite decimal_digit by lia. lia.
    + rewrite decimal_append, IH.
      * rewrite decimal_digit by (apply Z.mod_pos_bound; lia).
        rewrite (Z.div_mod n 10) at 3 by lia. reflexivity.
      * split; [apply Z.div_pos; lia|].
        apply Z.div_lt_upper_bound; [lia|].
        rewrite Nat2Z.inj_succ, Z.pow_succ_r in H by lia. lia.
Qed.

Lemma decimal_fill_zero (n : nat) (s : string) :
  Saver.decimal 0 (Saver.fill "0" n ++ s) = Saver.decimal 0 s.
Proof. induction n as [|n IH]; cbn; [reflexivity|exact IH]. Qed.

(** The frame number is read back from its field. *)
Lemma decimal_frame_number (n : Z) :
  0 <= n < 10 ^ 20 ->
  Saver.decimal 0 (Saver.setfill_setw "0" 6 (Saver.show_int n)) = n.
Proof.
  intro H. unfold Saver.setfill_setw, Saver.show_int.
  destruct (n <? 0) eqn:E; [lia|].
  rewrite decimal_fill_zero. now apply decimal_digits.
Qed.

Lemma digits_S (fuel : nat) (n : Z) :
  Saver.digits (S fuel) n
  = if n <? 10 then String (Saver.digit n) ""
    else (Saver.digits fuel (n / 10)
            ++ String (Saver.digit (n mod 10)) "")%string.
Proof. reflexivity. Qed.

Lemma digits_not_empty (fuel : nat) (n : Z) :
  exists c r, Saver.digits (S fuel) n = String c r
              /\ Ascii.eqb "-" c = false.
Proof.
  revert n. induction fuel as [|f IH]; intro n.
  - cbn [Saver.digits]. destruct (n <? 10) eqn:E.
    + destruct (digit_cases n ltac:(lia)) as (k & Hk & -> & _).
      do 2 eexists. split; [reflexivity|exact (minus_no_digit k Hk)].
    + cbn [Saver.digits String.append].
      destruct (digit_cases (n mod 10)) as (k & Hk & -> & _).
      { apply Z.mod_pos_bound. lia. }
      do 2 eexists. split; [reflexivity|exact (minus_no_digit k Hk)].
  - rewrite (digits_S (S f) n). destruct (n <? 10) eqn:E.
    + destruct (digit_cases n ltac:(lia)) as (k & Hk & -> & _).
      do 2 eexists. split; [reflexivity|exact (minus_no_digit k Hk)].
    + destruct (IH (n / 10)) as (c & r & -> & Hc).
      cbn [String.append]. do 2 eexists. split; [reflexivity|exact Hc].
Qed.

Lemma string_head (c d : ascii) (s u : string) :
  String c s = String d u -> c = d.
Proof. intro H. now injection H. Qed.

(** Two integers that print alike are equal. *)
Lemma show_int_injective (n m : Z) :
  - 10 ^ 20 < n < 10 ^ 20 -> - 10 ^ 20 < m < 10 ^ 20 ->
  Saver.show_int n = Saver.show_int m -> n = m.
Proof.
  intros Hn Hm. unfold Saver.show_int.
  destruct (n <? 0) eqn:En; destruct (m <? 0) eqn:Em; intro H.
  - apply append_cancel_l in H.
    apply (f_equal (Saver.decimal 0)) in H.
    rewrite !decimal_digits in H by (change (Z.of_nat 20) with 20; lia).
    lia.
  - exfalso. destruct (digits_not_empty 19 m) as (c & r & Hd & Hc).
    rewrite Hd in H. cbn [String.append] in H. apply string_head in H.
    subst c. discriminate.
  - exfalso. destruct (digits_not_empty 19 n) as (c & r & Hd & Hc).
    rewrite Hd in H. cbn [String.append] in H. apply string_head in H.
    subst c. discriminate.
  - apply (f_equal (Saver.decimal 0)) in H.
    rewrite !decimal_digits in H by (change (Z.of_nat 20) with 20; lia).
    exact H.
Qed.

End Texts.

(** ** File names: one frameset, one frame number *)

Section DistinctNames.

Import String Ascii.

(** What [create_filename] puts behind the directory and [/frame_]. *)
Lemma create_filename_tail (d s s' e e' : string) (n n' ts ts' : Z) :
  Saver.create_filename d s n ts e = Saver.create_filename d s' n' ts' e' ->
  Saver.setfill_setw "0" 6 (Saver.show_int n)
    = Saver.setfill_setw "0" 6 (Saver.show_int n')
  /\ Saver.show_int ts = Saver.show_int ts'
  /\ (s ++ e = s' ++ e')%string.
Proof.
  unfold Saver.create_filename. intro H.
  do 2 apply append_cancel_l in H.
  destruct (first_separator "_" _ _ _ _
              (free_of_frame_number n) (free_of_frame_number n') H)
    as [Hn H'].
  split; [exact Hn|].
  exact (first_separator "_" _ _ _ _
           (free_of_show_int "_" ts underscore_no_digit eq_refl)
           (free_of_show_int "_" ts' underscore_no_digit eq_refl) H').
Qed.

Lemma create_filename_number (d s s' e e' : string) (n n' ts ts' : Z) :
  0 <= n < 10 ^ 20 -> 0 <= n' < 10 ^ 20 ->
  Saver.create_filename d s n ts e = Saver.create_filename d s' n' ts' e' ->
  n = n'.
Proof.
  intros Hn Hn' H. apply create_filename_tail in H. destruct H as [H _].
  apply (f_equal (Saver.decimal 0)) in H.
  now rewrite !decimal_frame_number in H.
Qed.

(** Names of files in different directories differ; here by their
    fifteenth character. *)
Ltac other_directory H :=
  exfalso; unfold Saver.create_filename in H;
  cbn [String.append] in H; discriminate H.

(** Two of the five files carry the same number and timestamp only if
    they are the same file, and files of different numbers differ. *)
Lemma saved_names (t1 t2 : string * string * string)
    (n n' ts ts' : Z) :
  In t1 Saver.saved_as -> In t2 Saver.saved_as ->
  0 <= n < 10 ^ 20 -> 0 <= n' < 10 ^ 20 ->
  (let '(d, s, e) := t1 in Saver.create_filename d s n ts e)
  = (let '(d, s, e) := t2 in Saver.create_filename d s n' ts' e) ->
  n = n' /\ t1 = t2.
Proof.
  intros H1 H2 Hn Hn'.
  cbn [Saver.saved_as In] in H1, H2.
  destruct H1 as [H1|[H1|[H1|[H1|[H1|[]]]]]]; subst t1;
    destruct H2 as [H2|[H2|[H2|[H2|[H2|[]]]]]]; subst t2;
    intro H;
    first
      [ split; [exact (create_filename_number _ _ _ _ _ _ _ _ _ Hn Hn' H)
               |reflexivity]
      | other_directory H
      | exfalso; apply create_filename_tail in H;
        destruct H as (_ & _ & H); discriminate H ].
Qed.

Lemma NoDup_saved_as : NoDup Saver.saved_as.
Proof.
  unfold Saver.saved_as.
  repeat (constructor; [cbn; intuition discriminate|]). constructor.
Qed.

(** The five names of one frame number and timestamp are distinct. *)
Lemma five_names_distinct (n ts : Z) :
  0 <= n < 10 ^ 20 ->
  NoDup (map (fun t => let '(d, s, e) := t in
                       Saver.create_filename d s n ts e) Saver.saved_as).
Proof.
  intro Hn. apply NoDup_map_NoDup_ForallPairs; [|apply NoDup_saved_as].
  intros t1 t2 H1 H2 H.
  exact (proj2 (saved_names t1 t2 n n ts ts H1 H2 Hn Hn H)).
Qed.

End DistinctNames.

Section NoOverwriting.

Import String Ascii.

Lemma NoDup_app_disjoint {A} (l1 l2 : list A) (x : A) :
  NoDup (l1 ++ l2) -> In x l1 -> ~ In x l2.
Proof.
  induction l1 as [|y l1 IH]; intros H H1 H2; [destruct H1|].
  cbn in H. apply NoDup_cons_iff in H. destruct H as [Hy H].
  destruct H1 as [->|H1]; [apply Hy, in_or_app; now right|].
  exact (IH H H1 H2).
Qed.

Variables n ts : Z.
Hypothesis n_range : 0 <= n < 10 ^ 20.

Lemma color_and_depth_names :
  NoDup (Saver.color_names n ts ++ Saver.depth_names n ts).
Proof. exact (five_names_distinct n ts n_range). Qed.

(** The files of one frameset that has at most one colour and at most
    one depth video frame are distinct. *)
Lemma NoDup_frameset_files (frames : list Saver.frame) :
  (Saver.video_frames_of Saver.RS2_STREAM_COLOR frames <= 1)%nat ->
  (Saver.video_frames_of Saver.RS2_STREAM_DEPTH frames <= 1)%nat ->
  let F := flat_map (fun f => Saver.files (Saver.save_frame n ts f))
             frames in
  NoDup F
  /\ (Saver.video_frames_of Saver.RS2_STREAM_COLOR frames = 0%nat ->
      forall x, In x F -> ~ In x (Saver.color_names n ts))
  /\ (Saver.video_frames_of Saver.RS2_STREAM_DEPTH frames = 0%nat ->
      forall x, In x F -> ~ In x (Saver.depth_names n ts)).
Proof.
  pose proof color_and_depth_names as Hcd.
  assert (Hc : NoDup (Saver.color_names n ts)) by exact (NoDup_app_remove_r _ _ Hcd).
  assert (Hd : NoDup (Saver.depth_names n ts)) by exact (NoDup_app_remove_l _ _ Hcd).
  unfold Saver.video_frames_of.
  induction frames as [|[v st] frames IH]; cbv zeta.
  - intros _ _. split; [constructor|]. split; intros _ x [].
  - destruct v; [destruct st|];
      cbn [flat_map filter Saver.is_video_frame Saver.stream_type andb
           Datatypes.length];
      intros H1 H2.
    + (* a colour video frame *)
      destruct (IH ltac:(lia) H2) as (IH1 & IH2 & IH3). cbv zeta in *.
      split; [|split]; [|intro; lia|].
      * apply NoDup_app; [exact Hc|exact IH1|].
        intros x Hx Hin. exact (IH2 ltac:(lia) x Hin Hx).
      * intros H0 x Hin. apply in_app_or in Hin. destruct Hin as [Hin|Hin].
        -- exact (NoDup_app_disjoint _ _ x Hcd Hin).
        -- exact (IH3 H0 x Hin).
    + (* a depth video frame *)
      destruct (IH H1 ltac:(lia)) as (IH1 & IH2 & IH3). cbv zeta in *.
      split; [|split]; [| |intro; lia].
      * apply NoDup_app; [exact Hd|exact IH1|].
        intros x Hx Hin. exact (IH3 ltac:(lia) x Hin Hx).
      * intros H0 x Hin Hx. apply in_app_or in Hin.
        destruct Hin as [Hin|Hin].
        -- exact (NoDup_app_disjoint _ _ x Hcd Hx Hin).
        -- exact (IH2 H0 x Hin Hx).
    + exact (IH H1 H2).
    + exact (IH H1 H2).
Qed.

End NoOverwriting.

Section NoOverwritingRun.

Import String Ascii.

(** Every file of a run carries the number of its frameset. *)
Lemma in_files_numbered (l : list (Z * list Saver.frame)) (count : Z)
    (name : string) :
  In name (Saver.files_numbered count l) ->
  exists t k ts,
    In t Saver.saved_as
    /\ count < k <= count + Z.of_nat (Datatypes.length l)
    /\ name = (let '(d, s, e) := t in Saver.create_filename d s k ts e).
Proof.
  revert count. induction l as [|[ts frames] l IH]; intros count H;
    [destruct H|].
  cbn [Saver.files_numbered] in H. apply in_app_or in H.
  destruct H as [H|H].
  - apply in_flat_map in H. destruct H as (f & _ & H).
    destruct (saved_files_named _ _ _ _ H) as (d & s & e & Hin & ->).
    exists (d, s, e), (count + 1), ts. cbn [Datatypes.length].
    split; [exact Hin|]. split; [lia|reflexivity].
  - destruct (IH _ H) as (t & k & ts' & Hin & Hk & ->).
    exists t, k, ts'. cbn [Datatypes.length].
    split; [exact Hin|]. split; [lia|reflexivity].
Qed.

Lemma NoDup_files_numbered (l : list (Z * list Saver.frame)) (count : Z) :
  0 <= count -> count + Z.of_nat (Datatypes.length l) < 10 ^ 20 ->
  Forall (fun x => Saver.one_per_stream (snd x) = true) l ->
  NoDup (Saver.files_numbered count l).
Proof.
  revert count. induction l as [|[ts frames] l IH]; intros count Hc Hl Hall;
    [constructor|].
  cbn [Saver.files_numbered]. cbn [Datatypes.length] in Hl.
  apply Forall_cons_iff in Hall. destruct Hall as [Hone Hall].
  cbn [snd] in Hone. unfold Saver.one_per_stream in Hone.
  apply andb_true_iff in Hone. destruct Hone as [H1 H2].
  apply Nat.leb_le in H1. apply Nat.leb_le in H2.
  apply NoDup_app.
  - exact (proj1 (NoDup_frameset_files (count + 1) ts ltac:(lia)
                    frames H1 H2)).
  - apply IH; [lia|lia|exact Hall].
  - intros name Hin Hin'. apply in_flat_map in Hin.
    destruct Hin as (f & _ & Hin).
    destruct (saved_files_named _ _ _ _ Hin) as (d & s & e & Ht & Hname).
    destruct (in_files_numbered _ _ _ Hin') as (t' & k & ts' & Ht' & Hk & Hn).
    rewrite Hname in Hn.
    destruct (saved_names (d, s, e) t' (count + 1) k ts ts' Ht Ht'
                ltac:(lia) ltac:(lia) Hn) as [Heq _].
    lia.
Qed.

Lemma captured_one_per_stream (start : Z) (env : list Saver.iteration) :
  forallb Saver.delivers_one_per_stream env = true ->
  Forall (fun x => Saver.one_per_stream (snd x) = true)
    (Saver.captured start env)
  /\ (Datatypes.length (Saver.captured start env)
      <= Datatypes.length env)%nat.
Proof.
  induction env as [|i rest IH]; intro H; [split; [constructor|cbn; lia]|].
  cbn [forallb] in H. apply andb_true_iff in H. destruct H as [Hi H].
  destruct (IH H) as [IH1 IH2].
  cbn [Saver.captured Datatypes.length].
  destruct (Z.quot (Saver.high_resolution_now i - start) 1000000 >=? 10000);
    [split; [constructor|cbn; lia]|].
  unfold Saver.delivers_one_per_stream in Hi.
  destruct (Saver.wait_for_frames i) as [frames|];
    [|split; [constructor|cbn; lia]].
  split; [constructor; assumption|cbn [Datatypes.length]; lia].
Qed.

(** The files of [main] are those of its capture loop, if any. *)
Lemma files_main (pipe_start : bool) (start : Z)
    (env : list Saver.iteration) :
  Saver.files (fst (Saver.main pipe_start start env)) = []
  \/ Saver.files (fst (Saver.main pipe_start start env))
     = Saver.files_numbered 0 (Saver.captured start (skipn 30 env)).
Proof.
  unfold Saver.main. destruct pipe_start; [|left; reflexivity].
  pose proof (saver_files_stabilization 30 0 env) as Hf.
  pose proof (saver_stabilization_skipn 30 0 env) as Hs.
  destruct (Saver.stabilization 30 0 env) as [t [rest| |]];
    cbn [fst snd] in *.
  - right. specialize (Hs rest eq_refl). subst rest.
    pose proof (files_capture_loop start (skipn 30 env) 0) as Hc.
    destruct (Saver.capture_loop start 0 (skipn 30 env)) as [t' o].
    cbn [fst] in *.
    now rewrite !saver_files_app, files_directories, Hf, Hc.
  - left. now rewrite saver_files_app, files_directories, Hf.
  - left. rewrite !saver_files_app, files_directories, Hf. reflexivity.
Qed.


(** X11.  A file name tells the frame number and the timestamp it was
    made from: two names that [create_filename] builds in the same
    directory are equal only if their frame numbers are equal and their
    timestamps are equal, whatever the stream names and extensions. *)
Theorem X11_name_determines_number_and_timestamp
    (base_dir s s' e e' : string) (n n' ts ts' : Z) :
  0 <= n < 2 ^ 31 -> 0 <= n' < 2 ^ 31 ->
  - 2 ^ 63 <= ts < 2 ^ 63 -> - 2 ^ 63 <= ts' < 2 ^ 63 ->
  Saver.create_filename base_dir s n ts e
    = Saver.create_filename base_dir s' n' ts' e' ->
  n = n' /\ ts = ts'.
Proof.
  intros Hn Hn' Hts Hts' H.
  split.
  - apply (create_filename_number _ _ _ _ _ _ _ _ _) in H; [exact H|lia|lia].
  - apply create_filename_tail in H. destruct H as (_ & H & _).
    apply show_int_injective in H; [exact H|lia|lia].
Qed.

Lemma X11_name_determines_number_and_timestamp_witness :
  Saver.create_filename "captured_data/depth"%string
    "depth_colorized"%string 12 1700000000123 ".png"%string
  = Saver.create_filename "captured_data/depth"%string "depth"%string
      12 1700000000123 "_colorized.png"%string
  /\ 12 = 12 /\ 1700000000123 = 1700000000123.
Proof.
  split; [reflexivity|].
  apply (X11_name_determines_number_and_timestamp
           "captured_data/depth"%string "depth_colorized"%string
           "depth"%string ".png"%string "_colorized.png"%string
           12 12 1700000000123 1700000000123); try lia.
  reflexivity.
Defined.

(** X12.  The saving program writes no file twice: as long as every
    frameset holds at most one colour and at most one depth video frame,
    all the files of a run have different names, within a frameset and
    from one frameset to the next, also when two framesets get the same
    timestamp. *)
Theorem X12_no_file_written_twice (pipe_start : bool) (start : Z)
    (env : list Saver.iteration) :
  Z.of_nat (Datatypes.length env) < 2 ^ 31 ->
  forallb Saver.delivers_one_per_stream env = true ->
  NoDup (Saver.files (fst (Saver.main pipe_start start env))).
Proof.
  intros Hlen Hall.
  destruct (files_main pipe_start start env) as [-> | ->]; [constructor|].
  rewrite <- (firstn_skipn 30 env), forallb_app in Hall.
  apply andb_true_iff in Hall. destruct Hall as [_ Hall].
  destruct (captured_one_per_stream start (skipn 30 env) Hall) as [H1 H2].
  apply NoDup_files_numbered; [lia| |exact H1].
  rewrite length_skipn in H2. lia.
Qed.

Lemma X12_no_file_written_twice_witness :
  let env := Examples.saver_warm_up
               ++ [Examples.saver_answer 1000000 1700000000123
                     (Some Examples.color_and_depth);
                   Examples.saver_answer 34000000 1700000000123
                     (Some Examples.color_and_depth)] in
  Datatypes.length (Saver.files (fst (Saver.main true 0 env))) = 10%nat
  /\ NoDup (Saver.files (fst (Saver.main true 0 env))).
Proof.
  intro env. split; [vm_compute; reflexivity|].
  apply X12_no_file_written_twice.
  - vm_compute. reflexivity.
  - vm_compute. reflexivity.
Defined.

End NoOverwritingRun.

(** ** The metadata file *)

Section MetadataFile.

Import String Ascii.

Lemma append_empty_r (s : string) : (s ++ "")%string = s.
Proof. induction s as [|c s IH]; cbn; [reflexivity|now rewrite IH]. Qed.

Lemma concat_cons (x : string) (xs : list string) :
  String.concat "" (x :: xs) = (x ++ String.concat "" xs)%string.
Proof.
  destruct xs as [|y ys]; cbn [String.concat];
    [now rewrite append_empty_r|reflexivity].
Qed.

(** A text without newline, then a newline: one whole line. *)
Lemma whole_lines_line (s r : string) :
  Saver.free_of (ascii_of_nat 10) s = true ->
  Saver.whole_lines (s ++ String (ascii_of_nat 10) r)
  = option_map (cons s) (Saver.whole_lines r).
Proof.
  induction s as [|c s IH]; intro H.
  - cbn [String.append Saver.whole_lines]. now rewrite Ascii.eqb_refl.
  - cbn [Saver.free_of] in H. apply andb_true_iff in H.
    destruct H as [Hc H]. apply negb_true_iff in Hc.
    cbn [String.append Saver.whole_lines].
    rewrite Ascii.eqb_sym, Hc, (IH H).
    destruct (Saver.whole_lines r); reflexivity.
Qed.

Variable attribute_name : nat -> string.
Variable metadata : nat -> option Z.

(** The lines of the attributes with the indices [l]. *)
Lemma whole_lines_attributes (l : list nat) :
  forallb (fun i => Saver.free_of (ascii_of_nat 10) (attribute_name i)) l
    = true ->
  Saver.whole_lines
    (String.concat ""
       (map (fun i =>
               match metadata i with
               | Some v => attribute_name i ++ "," ++ Saver.show_int v
                             ++ Saver.newline
               | None => ""
               end)%string l))
  = Some (flat_map (fun i =>
                      match metadata i with
                      | Some v =>
                          [attribute_name i ++ "," ++ Saver.show_int v]
                      | None => []
                      end%string) l).
Proof.
  induction l as [|i l IH]; intro H; [reflexivity|].
  cbn [forallb] in H. apply andb_true_iff in H. destruct H as [Hi H].
  cbn [map flat_map]. rewrite concat_cons.
  destruct (metadata i) as [v|]; [|exact (IH H)].
  assert (Hfree : Saver.free_of (ascii_of_nat 10)
                    (attribute_name i ++ "," ++ Saver.show_int v) = true).
  { rewrite !free_of_append, Hi.
    rewrite (free_of_show_int _ v newline_no_digit eq_refl). reflexivity. }
  replace ((attribute_name i ++ "," ++ Saver.show_int v ++ Saver.newline)
             ++ String.concat "" (map _ l))%string
    with ((attribute_name i ++ "," ++ Saver.show_int v)
            ++ String (ascii_of_nat 10) (String.concat "" (map
                 (fun i =>
                    match metadata i with
                    | Some v => attribute_name i ++ "," ++ Saver.show_int v
                                  ++ Saver.newline
                    | None => ""
                    end) l)))%string.
  - rewrite (whole_lines_line _ _ Hfree), (IH H). reflexivity.
  - unfold Saver.newline. rewrite !append_assoc. reflexivity.
Qed.

End MetadataFile.

Section MetadataLines.

Import String Ascii.

(** X13.  The metadata file is a text of whole lines, each ended by a
    newline, the last one too: the line [Stream,<name>], the line
    [Metadata Attribute,Value], and then, in the order of the attribute
    numbers, one line [<attribute>,<value>] for every attribute that the
    frame supports and none for the others; this as long as neither the
    stream name nor an attribute name holds a newline. *)
Theorem X13_metadata_lines (count : nat) (attribute_name : nat -> string)
    (stream_name : string) (metadata : nat -> option Z) :
  Saver.free_of (ascii_of_nat 10) stream_name = true ->
  forallb (fun i => Saver.free_of (ascii_of_nat 10) (attribute_name i))
    (seq 0 count) = true ->
  Saver.whole_lines
    (Saver.metadata_to_csv count attribute_name stream_name metadata)
  = Some (("Stream," ++ stream_name)%string
            :: "Metadata Attribute,Value"%string
            :: flat_map (fun i =>
                           match metadata i with
                           | Some v =>
                               [attribute_name i ++ ","
                                  ++ Saver.show_int v]
                           | None => []
                           end%string) (seq 0 count)).
Proof.
  intros Hs Hn. unfold Saver.metadata_to_csv, Saver.newline.
  replace ("Stream," ++ stream_name ++ String (ascii_of_nat 10) ""
             ++ "Metadata Attribute,Value" ++ String (ascii_of_nat 10) ""
             ++ String.concat "" (map _ (seq 0 count)))%string
    with (("Stream," ++ stream_name)
            ++ String (ascii_of_nat 10)
                 ("Metadata Attribute,Value"
                    ++ String (ascii_of_nat 10)
                         (String.concat ""
                            (map (fun i =>
                                    match metadata i with
                                    | Some v =>
                                        attribute_name i ++ ","
                                          ++ Saver.show_int v
                                          ++ Saver.newline
                                    | None => ""
                                    end) (seq 0 count)))))%string.
  - rewrite whole_lines_line by (rewrite free_of_append, Hs; reflexivity).
    rewrite whole_lines_line by reflexivity.
    now rewrite whole_lines_attributes.
  - rewrite !append_assoc. reflexivity.
Qed.

Lemma X13_metadata_lines_witness :
  let name := fun i => match i with
                       | O => "Frame Counter"
                       | 1%nat => "Sensor Timestamp"
                       | _ => "Temperature"
                       end%string in
  let metadata := fun i => match i with
                           | O => Some 42
                           | 1%nat => None
                           | _ => Some (-7)
                           end in
  Saver.whole_lines (Saver.metadata_to_csv 3 name "Depth" metadata)
  = Some ["Stream,Depth"; "Metadata Attribute,Value"; "Frame Counter,42";
          "Temperature,-7"]%string.
Proof.
  intros name metadata.
  rewrite (X13_metadata_lines 3 name "Depth" metadata eq_refl eq_refl).
  reflexivity.
Defined.

End MetadataLines.

(** ** The directories *)

Section Directories.

Import String Ascii.

(** [mkdir] adds a directory at its path or does nothing. *)
Lemma mkdir_lookup (permitted : bool) (fs : Saver.filesystem)
    (path q : string) :
  Saver.mkdir permitted fs path q = fs q
  \/ q = path /\ fs path = None
     /\ Saver.mkdir permitted fs path q = Some Saver.Directory.
Proof.
  unfold Saver.mkdir, Saver.stat.
  destruct (fs path) eqn:E; cbn [negb andb];
    [rewrite andb_false_r; now left|].
  destruct (permitted && true && _); [|now left].
  destruct (String.eqb q path) eqn:Eq; [|now left].
  apply String.eqb_eq in Eq. right. tauto.
Qed.

Lemma create_directory_cases (permitted : bool) (fs : Saver.filesystem)
    (path : string) :
  Saver.create_directory permitted fs path = fs
  \/ Saver.stat (Saver.create_directory permitted fs path) path = true.
Proof.
  unfold Saver.create_directory.
  destruct (negb (Saver.stat fs path)) eqn:E.
  - unfold Saver.mkdir.
    destruct (permitted && negb (Saver.stat fs path) && _);
      [right|left; reflexivity].
    unfold Saver.stat. now rewrite String.eqb_refl.
  - right. now apply negb_false_iff in E.
Qed.

(** X14.  [create_directory] changes nothing that exists, whether file
    or directory: after the call a path names what it named before, or,
    if it is the path of the call and named nothing, a directory.  A
    second call with the same path changes nothing any more. *)
Theorem X14_create_directory_keeps_what_exists (permitted : bool)
    (fs : Saver.filesystem) (path : string) :
  (forall q,
      Saver.create_directory permitted fs path q = fs q
      \/ q = path /\ fs path = None
         /\ Saver.create_directory permitted fs path q
            = Some Saver.Directory)
  /\ (forall q,
        Saver.create_directory permitted
          (Saver.create_directory permitted fs path) path q
        = Saver.create_directory permitted fs path q).
Proof.
  split; intro q.
  - unfold Saver.create_directory. destruct (negb (Saver.stat fs path));
      [apply mkdir_lookup|now left].
  - destruct (create_directory_cases permitted fs path) as [E|E].
    + now rewrite !E.
    + unfold Saver.create_directory at 1. now rewrite E.
Qed.

(** One call, looked up at a given path. *)
Lemma create_directory_at (fs : Saver.filesystem) (path q : string) :
  Saver.create_directory true fs path q
  = if String.eqb q path
    then match fs path with
         | Some x => Some x
         | None =>
             if match Saver.dirname path with
                | None => true
                | Some "" => true
                | Some d => match fs d with
                            | Some Saver.Directory => true
                            | _ => false
                            end
                end%string
             then Some Saver.Directory else None
         end
    else fs q.
Proof.
  unfold Saver.create_directory, Saver.mkdir, Saver.stat.
  destruct (String.eqb q path) eqn:Eq.
  - apply String.eqb_eq in Eq. subst q.
    destruct (fs path) eqn:E; cbn [negb andb]; [exact E|].
    destruct (match Saver.dirname path with
              | None => true
              | Some d => _
              end); [now rewrite String.eqb_refl|exact E].
  - destruct (fs path) eqn:E; cbn [negb andb]; [reflexivity|].
    destruct (match Saver.dirname path with
              | None => true
              | Some d => _
              end); [now rewrite Eq|reflexivity].
Qed.

End Directories.

Section DirectoriesOfMain.

Import String Ascii.

(** The four calls of [main], looked up at one path. *)
Ltac look_up fs :=
  unfold Saver.create_directories, Saver.directory_paths;
  cbn [fold_left]; repeat (progress (rewrite ?create_directory_at; cbn));
  repeat match goal with
         | |- context [fs ?p] => destruct (fs p) as [[|]|]; cbn
         end.

(** X15.  When [captured_data] is absent or a directory at the start
    and the process may create directories, then after the four calls
    of [main] each of [captured_data], [captured_data/rgb],
    [captured_data/depth] and [captured_data/metadata] exists, and those
    that were absent are directories now. *)
Theorem X15_directories_exist_afterwards (fs : Saver.filesystem) :
  fs "captured_data"%string <> Some Saver.Regular_file ->
  Forall (fun p =>
            Saver.stat (Saver.create_directories true fs) p = true
            /\ (fs p = None ->
                Saver.create_directories true fs p = Some Saver.Directory))
    Saver.directory_paths.
Proof.
  intro H. unfold Saver.directory_paths at 1, Saver.stat.
  repeat constructor; revert H; look_up fs;
    try reflexivity; try discriminate; try (intro H; now destruct H).
Qed.

End DirectoriesOfMain.

Section FileInTheWay.

Import String Ascii.

Lemma create_directory_existing (permitted : bool) (fs : Saver.filesystem)
    (path : string) :
  fs path <> None ->
  Saver.create_directory permitted fs path = fs.
Proof.
  intro H. unfold Saver.create_directory, Saver.stat.
  destruct (fs path); [reflexivity|congruence].
Qed.

Lemma create_directory_blocked (permitted : bool) (fs : Saver.filesystem)
    (path d : string) (c : ascii) :
  Saver.dirname path = Some (String c d) ->
  fs (String c d) = Some Saver.Regular_file ->
  Saver.create_directory permitted fs path = fs.
Proof.
  intros Hd Hf. unfold Saver.create_directory, Saver.mkdir.
  rewrite Hd, Hf, !andb_false_r.
  destruct (negb (Saver.stat fs path)); reflexivity.
Qed.

Lemma X15_directories_exist_afterwards_witness :
  map (Saver.create_directories true FileSystems.empty_filesystem)
    Saver.directory_paths
  = [Some Saver.Directory; Some Saver.Directory; Some Saver.Directory;
     Some Saver.Directory].
Proof.
  pose proof (X15_directories_exist_afterwards FileSystems.empty_filesystem
                ltac:(discriminate)) as H.
  unfold Saver.directory_paths in *.
  repeat match goal with
         | H : Forall _ (_ :: _) |- _ =>
             apply Forall_cons_iff in H;
             let H1 := fresh "H" in destruct H as [[_ H1] H];
             specialize (H1 eq_refl)
         end.
  cbn [map]. repeat f_equal; assumption.
Defined.

(** X16.  When [captured_data] names a regular file at the start, the
    four calls of [main] create nothing and change nothing, whether the
    process may create directories or not; nothing is reported either,
    as no result is looked at. *)
Theorem X16_file_in_the_way (permitted : bool) (fs : Saver.filesystem) :
  fs "captured_data"%string = Some Saver.Regular_file ->
  Saver.create_directories permitted fs = fs.
Proof.
  intro H. unfold Saver.create_directories, Saver.directory_paths.
  cbn [fold_left].
  rewrite (create_directory_existing permitted fs "captured_data")
    by congruence.
  rewrite (create_directory_blocked permitted fs "captured_data/rgb"
             "aptured_data" "c" eq_refl H).
  rewrite (create_directory_blocked permitted fs "captured_data/depth"
             "aptured_data" "c" eq_refl H).
  exact (create_directory_blocked permitted fs "captured_data/metadata"
           "aptured_data" "c" eq_refl H).
Qed.

Lemma X16_file_in_the_way_witness :
  map (Saver.create_directories true FileSystems.file_in_the_way)
    Saver.directory_paths
  = [Some Saver.Regular_file; None; None; None].
Proof.
  rewrite (X16_file_in_the_way true FileSystems.file_in_the_way eq_refl).
  reflexivity.
Defined.

End FileInTheWay.

(** ** Frame ids on the wire *)

Section WireIds.

Variable a : abi.

Lemma read_frame_id (junk : nat -> byte) (h : NetworkFrame)
    (rest : list byte) :
  read_at 0 U32 (NetworkFrame_image a junk h ++ rest)
  = le_value (le_bytes 4 (frame_id h)).
Proof. destruct a; reflexivity. Qed.

Lemma wire_ids_stream_loop (env : list iteration) (s : loop_state) :
  0 <= frame_count s ->
  frame_count s + Z.of_nat (length env) < 2 ^ 32 ->
  StronglySorted Z.lt (wire_ids (fst (stream_loop a s env)))
  /\ Forall (fun id => frame_count s <= id)
       (wire_ids (fst (stream_loop a s env))).
Proof.
  unfold wire_ids.
  revert s. induction env as [|i rest IH]; intros s H0 Hlen.
  - cbn. split; constructor.
  - cbn [length] in Hlen.
    assert (Hnext : u32 (frame_count s + 1) = frame_count s + 1)
      by (apply u32_small; lia).
    next_iteration a s i rest IH.
    + cbn. split; constructor.
    + apply IH; lia.
    + cbn [datagrams]. destruct (IH {| frame_count := u32 (frame_count s + 1);
                                       last_fps_time := last_fps_time s;
                                       fps_counter := fps_counter s |})
        as [IH1 IH2]; cbn [frame_count]; try lia.
      split; [exact IH1|].
      eapply Forall_impl; [|exact IH2]. cbn [frame_count]. intros; lia.
    + set (s2 := snd (fps_monitoring _ _ _)).
      assert (Hs2 : frame_count s2 = frame_count s + 1)
        by (subst s2; rewrite frame_count_fps_monitoring; exact Hnext).
      destruct (IH s2) as [IH1 IH2]; try lia.
      cbn [datagrams map fst]. rewrite !datagrams_app.
      rewrite datagrams_fps_monitoring.
      assert (Hd : datagrams (if sendto_result i <? 0 then [Perror_sendto]
                              else []) = [])
        by (destruct (sendto_result i <? 0); reflexivity).
      rewrite Hd. cbn [app].
      unfold create_packet. rewrite read_frame_id.
      rewrite le_value_le_bytes_small
        by (subst h; cbn [frame_id prepare_network_frame];
            change (256 ^ Z.of_nat 4) with (2 ^ 32); lia).
      subst h. cbn [frame_id prepare_network_frame].
      split.
      * constructor; [exact IH1|].
        eapply Forall_impl; [|exact IH2]. intros id Hid. cbv beta in Hid.
        lia.
      * constructor; [lia|].
        eapply Forall_impl; [|exact IH2]. intros id Hid. cbv beta in Hid.
        lia.
Qed.

End WireIds.

(** X17.  The frame ids go out in strictly increasing order: in a run
    of fewer than [2^32] framesets, the [frame_id] members of the
    datagrams handed to [sendto], one after the other, increase
    strictly, so that the sender repeats no id and puts none out of
    order, failed sends and dropped frames included. *)
Theorem X17_wire_ids_increase (a : abi) (argc fd : Z) (pipe_start : bool)
    (t0 : Z) (env : list iteration) :
  Z.of_nat (length env) < 2 ^ 32 ->
  StronglySorted Z.lt
    (wire_ids (fst (main a argc fd pipe_start t0 env))).
Proof.
  intro Hlen.
  destruct (main_loop_events a argc fd pipe_start t0 env)
    as (rest & Hd & _ & _ & _ & _ & pre & Henv). cbv zeta in Hd.
  unfold wire_ids. rewrite Hd.
  apply (wire_ids_stream_loop a rest (initial_state t0)).
  - cbn. lia.
  - subst env. rewrite length_app in Hlen. cbn [frame_count initial_state].
    lia.
Qed.

Lemma X17_wire_ids_increase_witness :
  let env := Examples.warm_up
               ++ [Examples.answer (Some Examples.tiny_frameset) 1 10 0;
                   Examples.answer (Some Examples.configured_frameset) 2 0 0;
                   Examples.answer (Some Examples.tiny_frameset) 3 (-1) 0;
                   Examples.answer (Some Examples.tiny_frameset) 4 10 0] in
  wire_ids (fst (main Align8 2 3 true 0 env)) = [0; 2; 3]
  /\ StronglySorted Z.lt (wire_ids (fst (main Align8 2 3 true 0 env))).
Proof.
  intro env. split; [vm_compute; reflexivity|].
  apply X17_wire_ids_increase. vm_compute. reflexivity.
Defined.

(** ** Reading the frame number and the timestamp off a file name *)

Section NamesReadBack.

Import String Ascii.









End NamesReadBack.

Section ManyFramesets.

Import String Ascii.





End ManyFramesets.
